(** * gini-2.0: the analysis-and-classification pipeline of the Telegram bot

    A shallow embedding of [main.py].  Python values are modelled as follows.

    - [str] is [string]; a character is a byte of the UTF-8 text of the
      source file, so the literals below are the literals of [main.py] as
      they are stored there.  [strip] removes the white space of Unicode
      in its UTF-8 form, and [lower] changes the ASCII letters, which is
      all the test for [/search] can see: no other character has a lower
      case that holds one of its letters.  Where Python counts code points
      ([title], the slice [[:1000]]) the model counts bytes, which agrees
      on ASCII text.
    - [int] is [Z].  A finite [float] is the rational it denotes ([Q]);
      comparing a float with an integer constant and truncating it with
      [int] are exact on that value.  [int / 10] is the exact quotient: for
      integers below 2^52 in absolute value the double nearest to [c / 10]
      rounds to the same integer as the quotient itself, because a tie
      [c = 10 k + 5] is the binary fraction [k + 1/2] and every other
      quotient is at least 1/10 away from a tie.  NaN, infinities and the
      [OverflowError] of [float] on integers above 1.8e308 are left out.
    - a [dict] decoded from the model's JSON answer is a record of optional
      fields holding the types the prompt asks for; any other JSON value is
      [JNotDict].
    - [bot_user_data] is a finite map from the user id string to a record
      with the optional keys [history] and [last_complaint].
    - exceptions are values of [exn]; a computation is a function from the
      world to a result and the world it leaves behind, so that what was
      written before an exception stays written.
    - everything outside the program (the remote model, [json.loads], the
      Telegram API, file download) is a field of [env]; theorems hold for
      every [env].  Appending to the log file and rewriting
      [user_data.json] are assumed to succeed; the time stamp of a log line
      is omitted. *)

From Stdlib Require Import ZArith QArith Qround String Ascii List Lia.
From Stdlib Require Import DecimalString.
From stdpp Require Import gmap strings list.

Local Open Scope string_scope.

(* ================================================================== *)
(** * Python built-ins *)
(* ================================================================== *)

Module Py.

(** Characters that cannot be written inside a literal. *)
Definition nl : string := String "010"%char EmptyString.
Definition dq : string := String "034"%char EmptyString.

Inductive exn_class :=
| AttributeError | IndexError | ValueError | JSONDecodeError
| FileNotFoundError | PermissionError | UnicodeDecodeError | RecursionError
| ApiTelegramException | RequestException | GoogleAPIError.

Inductive exn := Exn (c : exn_class) (m : string).

Definition exn_cls (e : exn) : exn_class := let 'Exn c _ := e in c.

Definition class_name (c : exn_class) : string :=
  match c with
  | AttributeError => "AttributeError" | IndexError => "IndexError"
  | ValueError => "ValueError" | JSONDecodeError => "JSONDecodeError"
  | FileNotFoundError => "FileNotFoundError"
  | PermissionError => "PermissionError"
  | UnicodeDecodeError => "UnicodeDecodeError"
  | RecursionError => "RecursionError"
  | ApiTelegramException => "ApiTelegramException"
  | RequestException => "RequestException"
  | GoogleAPIError => "GoogleAPIError"
  end.

(** [repr(e)], used in log lines only: [Class('message')]. *)
Definition repr (e : exn) : string :=
  let 'Exn c m := e in class_name c +:+ "('" +:+ m +:+ "')".

#[global] Instance exn_class_eq_dec : EqDecision exn_class.
Proof. solve_decision. Defined.

(** The outcome of an expression that may raise. *)
Inductive outcome (A : Type) :=
| Ok (a : A)
| Raise (e : exn).
Arguments Ok {A} a.
Arguments Raise {A} e.

(** Numbers as JSON delivers them. *)
Inductive num :=
| PyInt (z : Z)
| PyFloat (q : Q).

(** [float(x)] *)
Definition float (x : num) : Q :=
  match x with
  | PyInt z => inject_Z z
  | PyFloat q => q
  end.

(** [int(x)]: truncation toward zero. *)
Definition int (x : num) : Z :=
  match x with
  | PyInt z => z
  | PyFloat q => Z.quot (Qnum q) (Zpos (Qden q))
  end.

(** [a / b] on integers (true division), as the exact quotient.  Python
    gives the nearest double; [round] of it is [round] of the quotient for
    integers below 2^52 in absolute value (see the header), and not always
    beyond. *)
Definition truediv (a b : Z) : Q := (inject_Z a / inject_Z b)%Q.

(** [round(x)] with one argument: to the nearest integer, a tie goes to
    the even neighbour. *)
Definition round (x : Q) : Z :=
  let f := Qfloor x in
  match ((x - inject_Z f) ?= (1 # 2))%Q with
  | Lt => f
  | Gt => (f + 1)%Z
  | Eq => if Z.even f then f else (f + 1)%Z
  end.

(** [x >= n] for a float [x] and an integer constant [n]. *)
Definition ge (x : Q) (n : Z) : bool := Qle_bool (inject_Z n) x.

(** [str(n)] for an integer. *)
Definition str_of_int (n : Z) : string := NilZero.string_of_int (Z.to_int n).

(** [s * n]: [n] copies of [s], none when [n <= 0].  Python raises
    [OverflowError] or [MemoryError] for a product it cannot hold; the
    model builds it whatever its length. *)
Fixpoint repeat_str (s : string) (n : nat) : string :=
  match n with
  | O => ""
  | S n' => s +:+ repeat_str s n'
  end.

Definition mul (s : string) (n : Z) : string := repeat_str s (Z.to_nat n).

(** [sep.join(l)] *)
Fixpoint join (sep : string) (l : list string) : string :=
  match l with
  | [] => ""
  | [x] => x
  | x :: rest => x +:+ sep +:+ join sep rest
  end.

Definition is_upper (c : ascii) : bool :=
  let n := nat_of_ascii c in (65 <=? n)%nat && (n <=? 90)%nat.
Definition is_lower (c : ascii) : bool :=
  let n := nat_of_ascii c in (97 <=? n)%nat && (n <=? 122)%nat.
Definition to_upper (c : ascii) : ascii :=
  if is_lower c then ascii_of_nat (nat_of_ascii c - 32) else c.
Definition to_lower (c : ascii) : ascii :=
  if is_upper c then ascii_of_nat (nat_of_ascii c + 32) else c.

(** [s.title()]: the first letter of every run of letters in upper case,
    the others in lower case. *)
Fixpoint title_from (prev_cased : bool) (s : string) : string :=
  match s with
  | EmptyString => EmptyString
  | String c s' =>
      if is_upper c || is_lower c
      then String (if prev_cased then to_lower c else to_upper c)
                  (title_from true s')
      else String c (title_from false s')
  end.

Definition title (s : string) : string := title_from false s.

(** White space, as [str.isspace] and [str.strip] know it, in the UTF-8
    text of a string.  One byte: U+0009 to U+000D, U+001C to U+0020. *)
Definition is_space (c : ascii) : bool :=
  let n := nat_of_ascii c in
  ((9 <=? n)%nat && (n <=? 13)%nat) || ((28 <=? n)%nat && (n <=? 32)%nat).

(** Two bytes: U+0085 (C2 85) and U+00A0 (C2 A0). *)
Definition is_space2 (c1 c2 : ascii) : bool :=
  let a := nat_of_ascii c1 in
  let b := nat_of_ascii c2 in
  (a =? 194)%nat && ((b =? 133)%nat || (b =? 160)%nat).

(** Three bytes: U+1680 (E1 9A 80), U+2000 to U+200A (E2 80 80 to 8A),
    U+2028, U+2029, U+202F (E2 80 A8, A9, AF), U+205F (E2 81 9F) and
    U+3000 (E3 80 80). *)
Definition is_space3 (c1 c2 c3 : ascii) : bool :=
  let a := nat_of_ascii c1 in
  let b := nat_of_ascii c2 in
  let c := nat_of_ascii c3 in
  ((a =? 225)%nat && (b =? 154)%nat && (c =? 128)%nat)
  || ((a =? 226)%nat && (b =? 128)%nat
      && (((128 <=? c)%nat && (c <=? 138)%nat)
          || (c =? 168)%nat || (c =? 169)%nat || (c =? 175)%nat))
  || ((a =? 226)%nat && (b =? 129)%nat && (c =? 159)%nat)
  || ((a =? 227)%nat && (b =? 128)%nat && (c =? 128)%nat).

(** [s.lstrip()]: the white-space characters at the start are removed. *)
Fixpoint lstrip (s : string) : string :=
  match s with
  | EmptyString => EmptyString
  | String c1 s1 =>
      if is_space c1 then lstrip s1
      else
        match s1 with
        | EmptyString => s
        | String c2 s2 =>
            if is_space2 c1 c2 then lstrip s2
            else
              match s2 with
              | EmptyString => s
              | String c3 s3 => if is_space3 c1 c2 c3 then lstrip s3 else s
              end
        end
  end.

(** [s.rstrip()]: the text is cut where only white space follows.  A byte
    inside a character starts no white space, so the cut falls between two
    characters of a UTF-8 text. *)
Fixpoint rstrip (s : string) : string :=
  match s with
  | EmptyString => EmptyString
  | String c s' =>
      match lstrip s with
      | EmptyString => EmptyString
      | _ => String c (rstrip s')
      end
  end.

(** [s.strip()] *)
Definition strip (s : string) : string := rstrip (lstrip s).

(** [s.lower()] *)
Fixpoint lower (s : string) : string :=
  match s with
  | EmptyString => EmptyString
  | String c s' => String (to_lower c) (lower s')
  end.

(** [needle in hay] on strings *)
Fixpoint contains (needle hay : string) : bool :=
  String.prefix needle hay ||
  match hay with
  | EmptyString => false
  | String _ hay' => contains needle hay'
  end.

(** [s.split(' ', 1)]: cut at the first space, if there is one. *)
Fixpoint split_space_1 (s : string) : list string :=
  match s with
  | EmptyString => [""]
  | String c s' =>
      if Ascii.eqb c " "%char then [""; s']
      else match split_space_1 s' with
           | [a] => [String c a]
           | a :: rest => String c a :: rest
           | [] => []
           end
  end.

(** [l[i]] for [i >= 0] *)
Definition index {A} (l : list A) (i : nat) : outcome A :=
  match l !! i with
  | Some x => Ok x
  | None => Raise (Exn IndexError "list index out of range")
  end.

(** [l[-k:]]: the last [k] items, all of them when there are fewer;
    [l[-0:]] is [l[0:]]. *)
Definition last_items {A} (k : nat) (l : list A) : list A :=
  match k with
  | O => l
  | _ => drop (length l - k) l
  end.

(** [s[:k]] *)
Definition first_chars (k : nat) (s : string) : string := String.substring 0 k s.

(** Truth value of a string, of a list and of an optional object. *)
Definition truthy_str (s : string) : bool :=
  match s with EmptyString => false | _ => true end.
Definition truthy_list {A} (l : list A) : bool :=
  match l with [] => false | _ => true end.
Definition truthy_opt {A} (o : option A) : bool :=
  match o with None => false | Some _ => true end.

End Py.

Import Py.

(* ================================================================== *)
(** * Non-ASCII text of the literals of [main.py] *)
(* ================================================================== *)

Module Glyph.

(** line 29 *)
Definition CROSS_MARK : string := "‚ùå".
(** line 288 *)
Definition WARNING_SIGN : string := "‚ö†Ô∏è".
(** line 156 *)
Definition POLICE_LIGHT : string := "üö®".
(** line 158 *)
Definition CHECK_MARK : string := "‚úÖ".
(** line 162 *)
Definition GREEN_SQUARE : string := "üü©".
(** line 162 *)
Definition WHITE_SQUARE : string := "‚¨ú".
(** line 164 *)
Definition FLAG_GB : string := "üá¨üáß".
(** line 164 *)
Definition FLAG_IN : string := "üáÆüá≥".
(** line 164 *)
Definition HI_SUMMARY : string := "‡§∏‡§æ‡§∞‡§æ‡§Ç‡§∂".
(** line 166 *)
Definition MAGNIFIER : string := "üîé".
(** line 166 *)
Definition BULLET : string := "‚Ä¢".
(** line 201 *)
Definition WAVING_HAND : string := "üëã".
(** line 203 *)
Definition SPEECH_BALLOON : string := "üí¨".
(** line 205 *)
Definition FRAMED_PICTURE : string := "üñºÔ∏è".
(** line 206 *)
Definition MEMO : string := "üìù".
(** line 94 *)
Definition HI_NO_CONTENT : string := "‡§µ‡§ø‡§∂‡•ç‡§≤‡•á‡§∑‡§£ ‡§ï‡•á ‡§≤‡§ø‡§è ‡§ï‡•ã‡§à ‡§∏‡§æ‡§Æ‡§ó‡•ç‡§∞‡•Ä ‡§®‡§π‡•Ä‡§Ç‡•§".
(** line 115 *)
Definition HI_AI_ERROR : string := "‡§è‡§Ü‡§à ‡§§‡•ç‡§∞‡•Å‡§ü‡§ø ‡§ï‡•á ‡§ï‡§æ‡§∞‡§£ ‡§µ‡§ø‡§∂‡•ç‡§≤‡•á‡§∑‡§£ ‡§µ‡§ø‡§´‡§≤ ‡§π‡•Å‡§Ü‡•§".

End Glyph.
(* ================================================================== *)
(** * CONFIG *)
(* ================================================================== *)

Definition CONFIDENCE_THRESHOLD_FAKE : Z := 65.
Definition CONFIDENCE_THRESHOLD_REAL : Z := 60.
Definition MIN_MESSAGE_LENGTH : Z := 10.
Definition CHAT_HISTORY_LIMIT : nat := 6.
Definition LOG_FILE : string := "bot_logs.txt".

(* ================================================================== *)
(** * Data *)
(* ================================================================== *)

(** The JSON object the prompt asks the model for.  A key may be absent. *)
Record verdict := Verdict {
  result : option string;
  confidence : option num;
  reason : option string;
  why_card_en : option string;
  why_card_hi : option string;
  red_flags : option (list string)
}.

(** What [json.loads] can return on the model's answer. *)
Inductive json :=
| JDict (d : verdict)
| JNotDict.

(** [d.get(key, default)] *)
Definition get {A} (field : option A) (dflt : A) : A :=
  match field with
  | Some v => v
  | None => dflt
  end.

(** Looking up the attribute [get] on a JSON value. *)
Definition attr_get (j : json) : outcome verdict :=
  match j with
  | JDict d => Ok d
  | JNotDict => Raise (Exn AttributeError "object has no attribute 'get'")
  end.

(** One entry of a chat history: [{'role': ..., 'parts': [...]}]. *)
Record turn := Turn { role : string; parts : list string }.

(** One record of the store. *)
Record user_record := UserRecord {
  history : option (list turn);
  last_complaint : option string
}.

Abbreviation store := (gmap string user_record).

(** The file [user_data.json] as [open] and [json.load] find it. *)
Inductive file :=
| NoFile                    (* there is no such file *)
| NoAccess                  (* it exists and cannot be opened *)
| NotUtf8                   (* its bytes are not UTF-8 text *)
| NotJson                   (* its text is not a JSON document, and the parser says so *)
| TooDeep                   (* its text nests arrays or objects deeper than the
                               parser can follow, a JSON document or not *)
| JsonOther                 (* a JSON document that is not an object of records *)
| JsonStore (data : store). (* what [save_user_data] writes *)

(** What [load_user_data] returns. *)
Inductive loaded :=
| LStore (data : store)
| LOther.

Record image := Image { image_bytes : string }.

(** [message.from_user]; its [id] is [user_id] here. *)
Record user := User { user_id : Z; username : string }.

Record message := Message {
  message_id : Z;
  chat_id : Z;
  from_user : user;
  text : string;
  caption : option string;
  photo : list string            (* the file ids of the sizes of a photo *)
}.

(** The first argument of [log_event]: a Telegram user, or the string
    ["SYSTEM"], which has neither [id] nor [username]. *)
Inductive log_user :=
| SYSTEM
| LogUser (u : user).

Record log_line := LogLine {
  who : log_user;
  action : string;
  details : string
}.

(** Calls of the Telegram client. *)
Inductive api_call :=
| ReplyTo (to : message) (body : string) (parse_mode : option string)
| EditMessageText (body : string) (chat message : Z) (parse_mode : option string).

(** Parts of a prompt. *)
Inductive part :=
| PText (s : string)
| PImage (img : image).

(** Requests to the remote model. *)
Inductive request :=
| GenerateContent (json_mode : bool) (prompt_parts : list part)
| SendMessage (chat_history : list turn) (query : string).

(** The answer of [generate_content]. *)
Record response := Response {
  resp_parts : list string;
  resp_text : string
}.

(** Everything outside the program. *)
Record env := Env {
  (** the remote model: an answer or an exception *)
  gemini : request -> outcome response;
  (** [json.loads]; [None] is [JSONDecodeError] *)
  json_loads : string -> option json;
  (** the Telegram API: the id of the message sent or edited, or an exception *)
  telegram_api : api_call -> outcome Z;
  (** [get_file], [requests.get], [raise_for_status] and [Image.open] on a file id *)
  download : string -> outcome image
}.

(** The state of the process and of its files. *)
Record world := World {
  bot_user_data : store;          (* the global dictionary *)
  user_data_json : file;          (* the file user_data.json *)
  bot_logs : list log_line;       (* the file bot_logs.txt, oldest line first *)
  delivered : list api_call;      (* Telegram calls that succeeded, oldest first *)
  requested : list request        (* requests sent to the remote model, oldest first *)
}.

(* ================================================================== *)
(** * Computations that read and write the world and may raise *)
(* ================================================================== *)

Definition M (A : Type) : Type := world -> outcome A * world.

Definition ret {A} (a : A) : M A := fun w => (Ok a, w).
Definition raise {A} (e : exn) : M A := fun w => (Raise e, w).
Definition bind {A B} (m : M A) (k : A -> M B) : M B :=
  fun w => match m w with
           | (Ok a, w') => k a w'
           | (Raise e, w') => (Raise e, w')
           end.
(** [try: m  except Exception as e: h e] *)
Definition try_except {A} (m : M A) (h : exn -> M A) : M A :=
  fun w => match m w with
           | (Ok a, w') => (Ok a, w')
           | (Raise e, w') => h e w'
           end.
Definition lift {A} (o : outcome A) : M A := fun w => (o, w).
Definition gets {A} (f : world -> A) : M A := fun w => (Ok (f w), w).
Definition modify (f : world -> world) : M unit := fun w => (Ok tt, f w).

Declare Scope py_scope.
Delimit Scope py_scope with py.
Notation "x <- m ;; k" := (bind m (fun x => k))
  (at level 100, m at next level, right associativity) : py_scope.
Notation "m ;;; k" := (bind m (fun _ => k))
  (at level 100, right associativity) : py_scope.
Local Open Scope py_scope.

Definition set_bot_user_data (d : store) (w : world) : world :=
  World d (user_data_json w) (bot_logs w) (delivered w) (requested w).
Definition set_user_data_json (f : file) (w : world) : world :=
  World (bot_user_data w) f (bot_logs w) (delivered w) (requested w).
Definition add_log (l : log_line) (w : world) : world :=
  World (bot_user_data w) (user_data_json w) (bot_logs w ++ [l]) (delivered w) (requested w).
Definition add_delivered (c : api_call) (w : world) : world :=
  World (bot_user_data w) (user_data_json w) (bot_logs w) (delivered w ++ [c]) (requested w).
Definition add_requested (r : request) (w : world) : world :=
  World (bot_user_data w) (user_data_json w) (bot_logs w) (delivered w) (requested w ++ [r]).

(* ================================================================== *)
(** * LOGGING *)
(* ================================================================== *)

Definition log_event (u : log_user) (act : string) (det : string) : M unit :=
  modify (add_log (LogLine u act det)).

(* ================================================================== *)
(** * STORAGE *)
(* ================================================================== *)

(** [with open("user_data.json", "r", encoding="utf-8") as f: json.load(f)].
    The parser reports a text that is not JSON with [JSONDecodeError]; on a
    text nested deeper than the recursion limit of the interpreter it
    raises [RecursionError] before it can tell.  The messages of
    [UnicodeDecodeError], [JSONDecodeError] and [RecursionError] go on with
    the place of the fault. *)
Definition open_and_json_load (f : file) : outcome loaded :=
  match f with
  | NoFile =>
      Raise (Exn FileNotFoundError "[Errno 2] No such file or directory: 'user_data.json'")
  | NoAccess => Raise (Exn PermissionError "[Errno 13] Permission denied: 'user_data.json'")
  | NotUtf8 => Raise (Exn UnicodeDecodeError "'utf-8' codec can't decode byte")
  | NotJson => Raise (Exn JSONDecodeError "Expecting value")
  | TooDeep => Raise (Exn RecursionError "maximum recursion depth exceeded")
  | JsonOther => Ok LOther
  | JsonStore data => Ok (LStore data)
  end.

Definition load_user_data : M loaded :=
  try_except
    (f <- gets user_data_json ;; lift (open_and_json_load f))
    (fun e =>
       match exn_cls e with
       | FileNotFoundError | JSONDecodeError => ret (LStore ∅)
       | _ => raise e
       end).

Definition save_user_data (data : store) : M unit :=
  modify (set_user_data_json (JsonStore data)).

(* ================================================================== *)
(** * PROMPTS *)
(* ================================================================== *)

Definition lines (l : list string) : string :=
  fold_right (fun x acc => x +:+ nl +:+ acc) "" l.

Definition quoted (s : string) : string := dq +:+ s +:+ dq.

(** [UNIVERSAL_ANALYSIS_PROMPT.format(query=query)] *)
Definition UNIVERSAL_ANALYSIS_PROMPT_format (query : string) : string :=
  lines [
    "You are an AI misinformation and scam detector for text and images, focused on India.";
    "Analyze the user's content, which may include text and/or an image.";
    "Look for indicators of scams, fake news, or manipulation.";
    "Decide if the content is REAL, FAKE, or UNSURE.";
    "Respond ONLY in valid JSON:";
    "{";
    "  " +:+ quoted "result" +:+ ": " +:+ quoted "FAKE" +:+ " | " +:+ quoted "REAL"
         +:+ " | " +:+ quoted "UNSURE" +:+ ",";
    "  " +:+ quoted "confidence" +:+ ": 0-100,";
    "  " +:+ quoted "reason" +:+ ": "
         +:+ quoted "Short technical reason for your conclusion based on the content provided." +:+ ",";
    "  " +:+ quoted "why_card_en" +:+ ": "
         +:+ quoted "1-2 simple bullet point explanation in English." +:+ ",";
    "  " +:+ quoted "why_card_hi" +:+ ": "
         +:+ quoted "1-2 simple bullet point explanation in Hindi." +:+ ",";
    "  " +:+ quoted "red_flags" +:+ ": ["
         +:+ quoted "list of risk indicators like 'Suspicious QR Code', 'Urgent Action Required', etc."
         +:+ "]";
    "}";
    "User's query text: " +:+ quoted query
  ].

Definition IMAGE_DESCRIPTION_PROMPT : string :=
  lines [
    "You are an AI image analyst. Your task is to analyze the provided image and its caption.";
    "1.  **Describe the image:** Briefly describe the key elements in the image.";
    "2.  **Check for Manipulation:** Assess if the image shows signs of being digitally altered, photoshopped, or AI-generated.";
    "3.  **Contextual Analysis:** Based on the image and caption, provide a brief conclusion about its likely authenticity or purpose.";
    "Respond in clear, concise Markdown."
  ].

(* ================================================================== *)
(** * GEMINI CALLS *)
(* ================================================================== *)

(** A request to the remote model is recorded, whatever its outcome. *)
Definition gemini_call (E : env) (r : request) : M response :=
  fun w => (gemini E r, add_requested r w).

(** The dictionary returned for empty content. *)
Definition NO_CONTENT : verdict :=
  Verdict (Some "UNSURE") (Some (PyInt 0)) (Some "No content provided.")
          (Some "No content to analyze.") (Some Glyph.HI_NO_CONTENT) (Some []).

(** The dictionary returned when the model call fails. *)
Definition AI_ERROR : verdict :=
  Verdict (Some "UNSURE") (Some (PyInt 40)) (Some "AI error occurred.")
          (Some "Could not analyze due to an AI error.") (Some Glyph.HI_AI_ERROR) (Some []).

Definition call_gemini_for_structured_analysis
    (E : env) (query : string) (img : option image) : M json :=
  if negb (truthy_str query) && negb (truthy_opt img) then ret (JDict NO_CONTENT)
  else
    let prompt_parts :=
      ([PText (UNIVERSAL_ANALYSIS_PROMPT_format query)]
         ++ match img with Some i => [PImage i] | None => [] end)%list in
    try_except
      (resp <- gemini_call E (GenerateContent true prompt_parts) ;;
       (if negb (truthy_list (resp_parts resp))
        then raise (Exn ValueError "Blocked by AI safety filter.")
        else ret tt) ;;;
       let text := strip (resp_text resp) in
       log_event SYSTEM "RAW_GEMINI_ANALYSIS_RESPONSE" (first_chars 1000 text) ;;;
       match json_loads E text with
       | Some j => ret j
       | None => raise (Exn JSONDecodeError "Expecting value")
       end)
      (fun e =>
         log_event SYSTEM "ERROR" ("Structured analysis failed: " +:+ repr e) ;;;
         ret (JDict AI_ERROR)).

Definition call_gemini_for_image_description
    (E : env) (img : image) (capt : string) : M string :=
  try_except
    (let prompt_parts :=
       [PText IMAGE_DESCRIPTION_PROMPT;
        PText ("**User's Caption:** _" +:+ capt +:+ "_" +:+ nl +:+ nl +:+ "---");
        PImage img] in
     resp <- gemini_call E (GenerateContent false prompt_parts) ;;
     (if negb (truthy_list (resp_parts resp))
      then raise (Exn ValueError "Blocked by AI safety filter.")
      else ret tt) ;;;
     ret (resp_text resp))
    (fun e =>
       log_event SYSTEM "ERROR" ("Image description failed: " +:+ repr e) ;;;
       ret (Glyph.WARNING_SIGN +:+ " An error occurred while describing the image.")).

Definition call_gemini_for_chat
    (E : env) (query : string) (hist : list turn) : M string :=
  try_except
    (resp <- gemini_call E (SendMessage (last_items CHAT_HISTORY_LIMIT hist) query) ;;
     ret (resp_text resp))
    (fun e =>
       log_event SYSTEM "ERROR" ("Chat error: " +:+ repr e) ;;;
       ret (Glyph.WARNING_SIGN +:+ " The AI is currently unavailable.")).

(* ================================================================== *)
(** * HELPERS & FORMATTING *)
(* ================================================================== *)

Definition get_result_color (j : json) : outcome string :=
  match attr_get j with
  | Raise e => Raise e
  | Ok d =>
      let res := get (result d) "UNSURE" in
      let conf := float (get (confidence d) (PyInt 0)) in
      if String.eqb res "FAKE" && ge conf CONFIDENCE_THRESHOLD_FAKE then Ok "RED"
      else if String.eqb res "REAL" && ge conf CONFIDENCE_THRESHOLD_REAL then Ok "GREEN"
      else Ok "YELLOW"
  end.

(** [filled = round(confidence / 10)], exact where the division and the
    products of [confidence_bar] are (see [truediv] and [repeat_str]). *)
Definition filled_cells (conf : Z) : Z := round (truediv conf 10).

(** [bar = GREEN_SQUARE * filled + WHITE_SQUARE * (10 - filled)] *)
Definition confidence_bar (conf : Z) : string :=
  let filled := filled_cells conf in
  mul Glyph.GREEN_SQUARE filled +:+ mul Glyph.WHITE_SQUARE (10 - filled).

Definition format_analysis_reply (j : json) : outcome string :=
  match get_result_color j, attr_get j with
  | Raise e, _ => Raise e
  | _, Raise e => Raise e
  | Ok color, Ok d =>
      let res := title (get (result d) "UNSURE") in
      let conf := int (get (confidence d) (PyInt 0)) in
      let heading :=
        if String.eqb color "RED"
        then Glyph.POLICE_LIGHT +:+ " *Result: " +:+ res +:+ "* (Red Flag)"
        else if String.eqb color "GREEN"
        then Glyph.CHECK_MARK +:+ " *Result: " +:+ res +:+ "* (Green Flag)"
        else Glyph.WARNING_SIGN +:+ " *Result: " +:+ res +:+ "* (Yellow Flag)" in
      let bar := confidence_bar conf in
      let reply :=
        heading +:+ nl +:+ nl +:+ "*Confidence:* " +:+ bar
          +:+ " (" +:+ str_of_int conf +:+ "%)" +:+ nl
          +:+ "*Reason:* " +:+ get (reason d) "N/A" +:+ nl +:+ nl in
      let reply :=
        reply +:+ Glyph.FLAG_GB +:+ " *Summary:*" +:+ nl +:+ "> "
          +:+ get (why_card_en d) "N/A" +:+ nl +:+ nl
          +:+ Glyph.FLAG_IN +:+ " *" +:+ Glyph.HI_SUMMARY +:+ ":*" +:+ nl +:+ "> "
          +:+ get (why_card_hi d) "N/A" +:+ nl in
      let reply :=
        match red_flags d with
        | Some flags =>
            if truthy_list flags
            then reply +:+ nl +:+ "*" +:+ Glyph.MAGNIFIER +:+ " Textual Red Flags:*" +:+ nl
                   +:+ join nl (map (fun flag => Glyph.BULLET +:+ " _" +:+ flag +:+ "_") flags)
            else reply
        | None => reply
        end in
      Ok reply
  end.

(** A call of the Telegram client: recorded when the API accepts it. *)
Definition bot_call (E : env) (c : api_call) : M Z :=
  fun w => match telegram_api E c with
           | Ok i => (Ok i, add_delivered c w)
           | Raise e => (Raise e, w)
           end.

Definition exn_message (e : exn) : string := let 'Exn _ m := e in m.

Definition send_safe_reply
    (E : env) (msg : message) (body : string) (parse_mode : option string) : M unit :=
  try_except
    (bot_call E (ReplyTo msg body parse_mode) ;;; ret tt)
    (fun e => log_event (LogUser (from_user msg)) "SEND_FAIL"
                        ("Failed to send: " +:+ exn_message e)).

(* ================================================================== *)
(** * CORE BOT LOGIC *)
(* ================================================================== *)

(** [str(message.from_user.id)] *)
Definition user_id_str (msg : message) : string :=
  str_of_int (user_id (from_user msg)).

(** [str(d.get(key))] inside an f-string: a missing key prints as [None]. *)
Definition str_of_get (field : option string) : string :=
  match field with
  | Some s => s
  | None => "None"
  end.

(** The empty dictionary [{}] as a record of the store. *)
Definition empty_record : user_record := UserRecord None None.

(** [data.setdefault(key, {})["last_complaint"] = complaint] *)
Definition set_last_complaint (key complaint : string) (data : store) : store :=
  let r := match data !! key with
           | Some r => r
           | None => empty_record
           end in
  <[key := UserRecord (history r) (Some complaint)]> data.

Definition complaint_text_of (content : string) (d : verdict) : string :=
  "Content: " +:+ content +:+ nl +:+ nl +:+ "AI Analysis: " +:+ str_of_get (reason d).

(** [thinking_msg.message_id] is what the API returned for the first
    message; [thinking_msg.chat.id] is the chat of the message replied to. *)
Definition run_analysis
    (E : env) (msg : message) (content : string) (img : option image) : M unit :=
  thinking_id <-
    bot_call E (ReplyTo msg (Glyph.MAGNIFIER +:+ " Analyzing content...") None) ;;
  try_except
    (analysis_json <- call_gemini_for_structured_analysis E content img ;;
     reply_text <- lift (format_analysis_reply analysis_json) ;;
     color <- lift (get_result_color analysis_json) ;;
     reply_text <-
       (if String.eqb color "RED"
        then
          d <- lift (attr_get analysis_json) ;;
          modify (fun w =>
            set_bot_user_data
              (set_last_complaint (user_id_str msg) (complaint_text_of content d)
                                  (bot_user_data w)) w) ;;;
          data <- gets bot_user_data ;;
          save_user_data data ;;;
          ret (reply_text +:+ nl +:+ nl +:+ "*Action:* Use `/complaint` for report text.")
        else ret reply_text) ;;
     bot_call E (EditMessageText reply_text (chat_id msg) thinking_id (Some "Markdown")) ;;;
     d <- lift (attr_get analysis_json) ;;
     log_event (LogUser (from_user msg)) "ANALYSIS_SUCCESS"
               ("Result=" +:+ str_of_get (result d)))
    (fun e =>
       log_event (LogUser (from_user msg)) "ERROR"
                 ("Analysis loop crash: " +:+ repr e) ;;;
       bot_call E (EditMessageText (Glyph.CROSS_MARK +:+ " Error during analysis.")
                                   (chat_id msg) thinking_id None) ;;;
       ret tt).

(* ================================================================== *)
(** * COMMAND HANDLERS *)
(* ================================================================== *)

Definition welcome_text : string :=
  Glyph.WAVING_HAND +:+ " Hello! I'm your AI analyzer." +:+ nl +:+ nl
  +:+ "**How to use me:**" +:+ nl
  +:+ "1.  " +:+ Glyph.SPEECH_BALLOON +:+ " **Chat:** Talk to me normally." +:+ nl
  +:+ "2.  " +:+ Glyph.MAGNIFIER
  +:+ " **Structured Analysis:** Use `/search <text>` OR send a photo with `/search` in the caption."
  +:+ nl
  +:+ "3.  " +:+ Glyph.FRAMED_PICTURE
  +:+ " **Descriptive Analysis:** Send a photo *without* a command to get a description."
  +:+ nl
  +:+ "4.  " +:+ Glyph.MEMO +:+ " **Report:** Use `/complaint` after a 'Red Flag' result.".

Definition send_welcome (E : env) (msg : message) : M unit :=
  send_safe_reply E msg welcome_text (Some "Markdown") ;;;
  log_event (LogUser (from_user msg)) "COMMAND_START" "".

(** [try: m  except IndexError: h] *)
Definition try_except_IndexError {A} (m : M A) (h : M A) : M A :=
  try_except m (fun e => match exn_cls e with
                         | IndexError => h
                         | _ => raise e
                         end).

Definition search_command (E : env) (msg : message) : M unit :=
  try_except_IndexError
    (content_to_analyze <- lift (index (split_space_1 (text msg)) 1) ;;
     run_analysis E msg content_to_analyze None)
    (run_analysis E msg "" None).

(** [bot_user_data.get(user_id_str, {}).get("last_complaint")] *)
Definition stored_complaint (key : string) (data : store) : option string :=
  match data !! key with
  | Some r => last_complaint r
  | None => None
  end.

Definition complaint_cmd (E : env) (msg : message) : M unit :=
  complaint <- gets (fun w => stored_complaint (user_id_str msg) (bot_user_data w)) ;;
  (match complaint with
   | Some c =>
       if truthy_str c
       then send_safe_reply E msg
              (Glyph.MEMO +:+ " **Complaint Text:**" +:+ nl +:+ nl +:+ "`" +:+ c +:+ "`"
               +:+ nl +:+ nl +:+ "_Copy this to report._")
              (Some "Markdown")
       else send_safe_reply E msg "No 'Red Flag' text found. Run `/search` first." None
   | None => send_safe_reply E msg "No 'Red Flag' text found. Run `/search` first." None
   end) ;;;
  log_event (LogUser (from_user msg)) "COMMAND_COMPLAINT" "".

(* ================================================================== *)
(** * PHOTO & CHAT HANDLERS *)
(* ================================================================== *)

(** [message.photo[-1].file_id], then the download of that file. *)
Definition fetch_photo (E : env) (msg : message) : M image :=
  match last (photo msg) with
  | Some photo_id => lift (download E photo_id)
  | None => raise (Exn IndexError "list index out of range")
  end.

Definition handle_photo (E : env) (msg : message) : M unit :=
  let capt := get (caption msg) "" in
  if String.prefix "/search" (lower (strip capt))
  then
    try_except
      (content_to_analyze <-
         (if contains " " capt then lift (index (split_space_1 capt) 1) else ret "") ;;
       img <- fetch_photo E msg ;;
       run_analysis E msg content_to_analyze (Some img))
      (fun e =>
         log_event (LogUser (from_user msg)) "ERROR" ("Photo search failed: " +:+ repr e) ;;;
         send_safe_reply E msg
           (Glyph.CROSS_MARK +:+ " Error processing your image search request.") None)
  else
    thinking_id <-
      bot_call E (ReplyTo msg (Glyph.FRAMED_PICTURE +:+ " Analyzing image for a description...")
                          None) ;;
    try_except
      (img <- fetch_photo E msg ;;
       analysis_result <- call_gemini_for_image_description E img capt ;;
       bot_call E (EditMessageText analysis_result (chat_id msg) thinking_id (Some "Markdown")) ;;;
       log_event (LogUser (from_user msg)) "IMAGE_DESCRIPTION_SUCCESS" "")
      (fun e =>
         log_event (LogUser (from_user msg)) "ERROR"
                   ("Photo description failed: " +:+ repr e) ;;;
         bot_call E (EditMessageText (Glyph.CROSS_MARK +:+ " Error describing the image.")
                                     (chat_id msg) thinking_id None) ;;;
         ret tt).

(** [if key not in data: data[key] = {"history": []}] *)
Definition ensure_record (key : string) (data : store) : store :=
  match data !! key with
  | Some _ => data
  | None => <[key := UserRecord (Some []) None]> data
  end.

(** [data[key].get("history", [])] *)
Definition stored_history (key : string) (data : store) : list turn :=
  match data !! key with
  | Some r => get (history r) []
  | None => []
  end.

(** [data[key]["history"] = h], for a key that is in [data] *)
Definition set_history (key : string) (h : list turn) (data : store) : store :=
  match data !! key with
  | Some r => <[key := UserRecord (Some h) (last_complaint r)]> data
  | None => data
  end.

(** The list [hist] is the stored list itself when the record has the key
    [history]; [extend] then changes the stored list in place, and the
    assignment that follows at once replaces it by the slice.  Nothing can
    raise between the two, so they are one step here. *)
Definition handle_chat (E : env) (msg : message) : M unit :=
  modify (fun w => set_bot_user_data (ensure_record (user_id_str msg) (bot_user_data w)) w) ;;;
  hist <- gets (fun w => stored_history (user_id_str msg) (bot_user_data w)) ;;
  response <- call_gemini_for_chat E (text msg) hist ;;
  send_safe_reply E msg response None ;;;
  (if negb (contains Glyph.WARNING_SIGN response)
   then
     let hist' := (hist ++ [Turn "user" [text msg]; Turn "model" [response]])%list in
     modify (fun w =>
       set_bot_user_data
         (set_history (user_id_str msg) (last_items CHAT_HISTORY_LIMIT hist')
                      (bot_user_data w)) w) ;;;
     data <- gets bot_user_data ;;
     save_user_data data
   else ret tt) ;;;
  log_event (LogUser (from_user msg)) "CHAT_MESSAGE" "".

(* ================================================================== *)
(** * The bot as a transition system *)
(* ================================================================== *)

(** An update, already routed to its handler. *)
Inductive event :=
| CmdStart (msg : message)
| CmdSearch (msg : message)
| CmdComplaint (msg : message)
| Photo (msg : message)
| Chat (msg : message).

Definition handler (E : env) (ev : event) : M unit :=
  match ev with
  | CmdStart m => send_welcome E m
  | CmdSearch m => search_command E m
  | CmdComplaint m => complaint_cmd E m
  | Photo m => handle_photo E m
  | Chat m => handle_chat E m
  end.

(** One update: the polling loop drops an exception that escapes a handler,
    and what the handler wrote stays. *)
Definition step (w : world) (x : env * event) : world :=
  snd (handler (fst x) (snd x) w).

Definition run (w : world) (l : list (env * event)) : world :=
  fold_left step l w.

(* ================================================================== *)
(** * Definitions used to state the properties *)
(* ================================================================== *)

(** The three classifications. *)
Definition is_color (s : string) : Prop :=
  s = "RED" \/ s = "GREEN" \/ s = "YELLOW".

(** The dictionary with the given result and confidence and nothing else. *)
Definition pair_verdict (r : string) (c : num) : json :=
  JDict (Verdict (Some r) (Some c) None None None None).

(** The cells of a confidence bar. *)
Inductive cell := Filled | Empty.

Definition render_cell (c : cell) : string :=
  match c with
  | Filled => Glyph.GREEN_SQUARE
  | Empty => Glyph.WHITE_SQUARE
  end.

Definition render_cells (l : list cell) : string :=
  fold_right (fun c acc => render_cell c +:+ acc) "" l.

(** Rounding [c / 10] to the nearest integer in integer arithmetic, a tie
    going to the even neighbour. *)
Definition half_even_div10 (c : Z) : Z :=
  let q := (c / 10)%Z in
  let r := (c mod 10)%Z in
  if (r <? 5)%Z then q
  else if (5 <? r)%Z then (q + 1)%Z
  else if Z.even q then q else (q + 1)%Z.

(** Rounding [c / 10] to the nearest integer, a tie going up: the policy
    the specification chooses for the bar. *)
Definition half_up_div10 (c : Z) : Z := ((c + 5) / 10)%Z.

(** The first message of [run_analysis]. *)
Definition thinking_call (msg : message) : api_call :=
  ReplyTo msg (Glyph.MAGNIFIER +:+ " Analyzing content...") None.

(** The request [call_gemini_for_structured_analysis] sends. *)
Definition analysis_request (query : string) (img : option image) : request :=
  GenerateContent true
    ([PText (UNIVERSAL_ANALYSIS_PROMPT_format query)]
       ++ match img with Some i => [PImage i] | None => [] end)%list.

(** [not query and not img] *)
Definition no_content (query : string) (img : option image) : bool :=
  negb (truthy_str query) && negb (truthy_opt img).

(** The value [call_gemini_for_structured_analysis] returns, as a function
    of the outside world alone (shown equal to the code's in
    [structured_analysis_spec]). *)
Definition analysis_result (E : env) (query : string) (img : option image) : json :=
  if no_content query img then JDict NO_CONTENT
  else match gemini E (analysis_request query img) with
       | Raise _ => JDict AI_ERROR
       | Ok resp =>
           if truthy_list (resp_parts resp)
           then match json_loads E (strip (resp_text resp)) with
                | Some j => j
                | None => JDict AI_ERROR
                end
           else JDict AI_ERROR
       end.

(** The requests [call_gemini_for_structured_analysis] makes. *)
Definition analysis_requests (query : string) (img : option image) : list request :=
  if no_content query img then [] else [analysis_request query img].

(** The value [call_gemini_for_chat] returns (shown in [chat_spec]). *)
Definition chat_response (E : env) (query : string) (hist : list turn) : string :=
  match gemini E (SendMessage (last_items CHAT_HISTORY_LIMIT hist) query) with
  | Ok resp => resp_text resp
  | Raise _ => Glyph.WARNING_SIGN +:+ " The AI is currently unavailable."
  end.

(** The two entries a successful exchange adds to a history. *)
Definition turn_pair (query response : string) : list turn :=
  [Turn "user" [query]; Turn "model" [response]].

(** The complaint [run_analysis] stores: there is one when the first
    message is delivered and the analysis is classified RED. *)
Definition captured_complaint
    (E : env) (msg : message) (content : string) (img : option image) : option string :=
  match telegram_api E (thinking_call msg), analysis_result E content img with
  | Ok _, JDict d =>
      match get_result_color (JDict d) with
      | Ok col => if String.eqb col "RED" then Some (complaint_text_of content d) else None
      | Raise _ => None
      end
  | _, _ => None
  end.

(** The dictionary and the file are the same in two worlds. *)
Definition same_store (w w' : world) : Prop :=
  bot_user_data w' = bot_user_data w /\ user_data_json w' = user_data_json w.

(** The entries the event [x] adds to the history of [uid] in the world
    [w]: the pair of a chat exchange of that user whose response does not
    contain the error marker. *)
Definition new_turns (uid : string) (w : world) (x : env * event) : list turn :=
  match snd x with
  | Chat m =>
      if String.eqb (user_id_str m) uid
      then
        let response :=
          chat_response (fst x) (text m) (stored_history uid (bot_user_data w)) in
        if contains Glyph.WARNING_SIGN response then []
        else turn_pair (text m) response
      else []
  | _ => []
  end.

(** The entries a sequence of events adds to the history of [uid], oldest
    first. *)
Fixpoint exchanges (uid : string) (w : world) (l : list (env * event)) : list turn :=
  match l with
  | [] => []
  | x :: l' => (new_turns uid w x ++ exchanges uid (step w x) l')%list
  end.

(** A property of the world that every operation keeps. *)
Definition preserves {A} (P : world -> world -> Prop) (m : M A) : Prop :=
  forall w, P w (snd (m w)).

(** An outside world in which the remote model cannot be reached, no text
    is JSON, Telegram accepts every call and no file can be downloaded. *)
Definition offline : env :=
  Env (fun _ => Raise (Exn GoogleAPIError "503 Service Unavailable"))
      (fun _ => None)
      (fun _ => Ok 1%Z)
      (fun _ => Raise (Exn RequestException "connection refused")).

(** An outside world in which the remote model answers every request with
    the JSON value [j]. *)
Definition answering (j : json) : env :=
  Env (fun _ => Ok (Response ["{...}"] "{...}"))
      (fun _ => Some j)
      (fun _ => Ok 1%Z)
      (fun _ => Raise (Exn RequestException "connection refused")).

(** The number of underscores of a text. *)
Fixpoint underscores (s : string) : nat :=
  match s with
  | EmptyString => 0
  | String c s' => (if Ascii.eqb c "_"%char then 1 else 0) + underscores s'
  end.

(** As [answering], with a Telegram API that rejects a text sent with a
    parse mode when an underscore in it is left unmatched. *)
Definition answering_strict (j : json) : env :=
  Env (fun _ => Ok (Response ["{...}"] "{...}"))
      (fun _ => Some j)
      (fun c => match c with
                | EditMessageText body _ _ (Some _) | ReplyTo _ body (Some _) =>
                    if Nat.even (underscores body) then Ok 1%Z
                    else Raise (Exn ApiTelegramException "can't parse entities")
                | _ => Ok 1%Z
                end)
      (fun _ => Raise (Exn RequestException "connection refused")).

(** An outside world in which the remote model answers every chat message
    with [reply]. *)
Definition talking (reply : string) : env :=
  Env (fun _ => Ok (Response [reply] reply))
      (fun _ => None)
      (fun _ => Ok 1%Z)
      (fun _ => Raise (Exn RequestException "connection refused")).

(** The process right after a start without [user_data.json]. *)
Definition fresh_world : world := World ∅ NoFile [] [] [].

(** A text message of user 42. *)
Definition message_of_42 (body : string) : message :=
  Message 7 1000 (User 42 "asha") body None [].

(** The reply to an analysis of nothing. *)
Definition NO_CONTENT_REPLY : string :=
  Glyph.WARNING_SIGN +:+ " *Result: Unsure* (Yellow Flag)" +:+ nl +:+ nl
  +:+ "*Confidence:* " +:+ render_cells (repeat Empty 10) +:+ " (0%)" +:+ nl
  +:+ "*Reason:* No content provided." +:+ nl +:+ nl
  +:+ Glyph.FLAG_GB +:+ " *Summary:*" +:+ nl +:+ "> No content to analyze." +:+ nl +:+ nl
  +:+ Glyph.FLAG_IN +:+ " *" +:+ Glyph.HI_SUMMARY +:+ ":*" +:+ nl
  +:+ "> " +:+ Glyph.HI_NO_CONTENT +:+ nl.

(** Every user has the same history in two worlds. *)
Definition same_histories (w w' : world) : Prop :=
  forall u, stored_history u (bot_user_data w') = stored_history u (bot_user_data w).

(** Every user has the same complaint, or none, in two worlds. *)
Definition same_complaints (w w' : world) : Prop :=
  forall u, stored_complaint u (bot_user_data w') = stored_complaint u (bot_user_data w).

(** A user who has a complaint in [w] has one in [w']. *)
Definition complaint_kept (w w' : world) : Prop :=
  forall u, is_Some (stored_complaint u (bot_user_data w)) ->
            is_Some (stored_complaint u (bot_user_data w')).

(** An answer of the model that is classified RED. *)
Definition scam : verdict :=
  Verdict (Some "FAKE") (Some (PyInt 80)) (Some "Classic prize scam.")
          None None (Some ["Urgent Action Required"]).

(** An answer classified RED whose reason has an underscore. *)
Definition scam_link : verdict :=
  Verdict (Some "FAKE") (Some (PyInt 90))
          (Some "The domain free_iphone.example is a known scam.")
          None None (Some []).

(** The world after the analysis of a scam whose reply Telegram rejects. *)
Definition after_rejected_reply : world :=
  snd (run_analysis (answering_strict (JDict scam_link))
                    (message_of_42 "/search Win a free iPhone now")
                    "Win a free iPhone now" None fresh_world).

(** Four chat messages of user 42, each answered by the model. *)
Definition four_chats : list (env * event) :=
  map (fun body => (talking "Hello!", Chat (message_of_42 body))) ["a"; "b"; "c"; "d"].

(** The confidences for which [confidence_bar] is the bar of the program:
    up to a million either way the double nearest to [c / 10] rounds as the
    quotient does, and the bar, of at most 100010 cells, is a string that
    Python builds. *)
Definition bar_modelled (c : Z) : Prop := (-1000000 <= c <= 1000000)%Z.

(** The cells of the bar for any confidence: a product by a number that
    is not positive is empty. *)
Definition bar_cells (conf : Z) : list cell :=
  (repeat Filled (Z.to_nat (filled_cells conf))
     ++ repeat Empty (Z.to_nat (10 - filled_cells conf)))%list.

(** The dictionary with every missing key set to the default the
    formatter uses for it. *)
Definition with_defaults (d : verdict) : verdict :=
  Verdict (Some (get (result d) "UNSURE"))
          (Some (get (confidence d) (PyInt 0)))
          (Some (get (reason d) "N/A"))
          (Some (get (why_card_en d) "N/A"))
          (Some (get (why_card_hi d) "N/A"))
          (Some (get (red_flags d) [])).

(** The dictionary without the key [red_flags]. *)
Definition without_flags (d : verdict) : verdict :=
  Verdict (result d) (confidence d) (reason d) (why_card_en d) (why_card_hi d) None.

(** The last part of a reply that lists red flags. *)
Definition red_flags_section (flags : list string) : string :=
  nl +:+ "*" +:+ Glyph.MAGNIFIER +:+ " Textual Red Flags:*" +:+ nl
  +:+ join nl (map (fun flag => Glyph.BULLET +:+ " _" +:+ flag +:+ "_") flags).

(** The reply of [complaint_cmd] that holds the complaint [c]. *)
Definition complaint_reply (c : string) : string :=
  Glyph.MEMO +:+ " **Complaint Text:**" +:+ nl +:+ nl +:+ "`" +:+ c +:+ "`"
  +:+ nl +:+ nl +:+ "_Copy this to report._".

(** The reply of [complaint_cmd] when there is no complaint. *)
Definition NO_COMPLAINT_REPLY : string :=
  "No 'Red Flag' text found. Run `/search` first.".

(** The second message of [run_analysis] when the analysis failed. *)
Definition error_edit (msg : message) (tid : Z) : api_call :=
  EditMessageText (Glyph.CROSS_MARK +:+ " Error during analysis.") (chat_id msg) tid None.

(** The text [call_gemini_for_chat] returns when the model call raises. *)
Definition UNAVAILABLE : string :=
  Glyph.WARNING_SIGN +:+ " The AI is currently unavailable.".

(** An outside world in which Telegram rejects every call. *)
Definition muted : env :=
  Env (fun _ => Ok (Response ["Hello!"] "Hello!"))
      (fun _ => None)
      (fun _ => Raise (Exn ApiTelegramException "Too Many Requests"))
      (fun _ => Raise (Exn RequestException "connection refused")).

(** A history made of whole exchanges: a user entry, then the model's
    entry, and so on. *)
Definition whole_exchanges (h : list turn) : Prop :=
  exists l : list (string * string),
    h = flat_map (fun x => turn_pair (fst x) (snd x)) l.

(** The message of an update. *)
Definition event_message (ev : event) : message :=
  match ev with
  | CmdStart m | CmdSearch m | CmdComplaint m | Photo m | Chat m => m
  end.

(** What a restart would load agrees with the dictionary: [load_user_data]
    returns a dictionary in which every user has the history and the
    complaint the dictionary of the process has. *)
Definition durable (w : world) : Prop :=
  exists d, fst (load_user_data w) = Ok (LStore d) /\
            forall u, stored_history u d = stored_history u (bot_user_data w) /\
                      stored_complaint u d = stored_complaint u (bot_user_data w).

(** The request [call_gemini_for_image_description] sends. *)
Definition description_request (img : image) (capt : string) : request :=
  GenerateContent false
    [PText IMAGE_DESCRIPTION_PROMPT;
     PText ("**User's Caption:** _" +:+ capt +:+ "_" +:+ nl +:+ nl +:+ "---");
     PImage img].

(** The first message of [handle_photo] for a photo without [/search]. *)
Definition describing_call (msg : message) : api_call :=
  ReplyTo msg (Glyph.FRAMED_PICTURE +:+ " Analyzing image for a description...") None.

(** The reply of [handle_photo] when a photo search fails. *)
Definition photo_search_error (msg : message) : api_call :=
  ReplyTo msg (Glyph.CROSS_MARK +:+ " Error processing your image search request.") None.

(** The photo of a message cannot be had: the message has none, or its
    download fails. *)
Definition no_image (E : env) (msg : message) : Prop :=
  last (photo msg) = None \/
  exists pid e, last (photo msg) = Some pid /\ download E pid = Raise e.

(** A photo of user 42 with a caption. *)
Definition photo_of_42 (capt : string) : message :=
  Message 7 1000 (User 42 "asha") "" (Some capt) ["small"; "large"].

(** An outside world as [answering], in which files can be downloaded. *)
Definition online (j : json) : env :=
  Env (fun _ => Ok (Response ["{...}"] "{...}"))
      (fun _ => Some j)
      (fun _ => Ok 1%Z)
      (fun pid => Ok (Image pid)).

(** The second message of [handle_photo] when a description failed. *)
Definition description_error_edit (msg : message) (tid : Z) : api_call :=
  EditMessageText (Glyph.CROSS_MARK +:+ " Error describing the image.") (chat_id msg) tid None.

(** The text [call_gemini_for_image_description] returns when the model
    call fails. *)
Definition DESCRIPTION_FAILED : string :=
  Glyph.WARNING_SIGN +:+ " An error occurred while describing the image.".

(* ================================================================== *)
(** * Classification *)
(* ================================================================== *)

Lemma ge_true_iff (x : Q) (n : Z) : ge x n = true <-> (inject_Z n <= x)%Q.
Proof. unfold ge. apply Qle_bool_iff. Qed.

Lemma ge_false_iff (x : Q) (n : Z) : ge x n = false <-> ~ (inject_Z n <= x)%Q.
Proof.
  rewrite <- ge_true_iff. destruct (ge x n); split; intros H; congruence.
Qed.

Lemma ge_int (z n : Z) : ge (float (PyInt z)) n = (n <=? z)%Z.
Proof.
  unfold ge, float. unfold Qle_bool. simpl. rewrite !Z.mul_1_r. reflexivity.
Qed.

Lemma get_result_color_dict (d : verdict) :
  get_result_color (JDict d) =
  Ok (if String.eqb (get (result d) "UNSURE") "FAKE"
         && ge (float (get (confidence d) (PyInt 0))) CONFIDENCE_THRESHOLD_FAKE
      then "RED"
      else if String.eqb (get (result d) "UNSURE") "REAL"
              && ge (float (get (confidence d) (PyInt 0))) CONFIDENCE_THRESHOLD_REAL
      then "GREEN" else "YELLOW").
Proof.
  unfold get_result_color. simpl.
  destruct (_ && _); [reflexivity|]. destruct (_ && _); reflexivity.
Qed.

(** A JSON value that is not an object has no [get]. *)
Lemma get_result_color_not_dict :
  get_result_color JNotDict = Raise (Exn AttributeError "object has no attribute 'get'").
Proof. reflexivity. Qed.

(** C1.  [get_result_color] returns a classification for every dictionary,
    never raises on one, and the classification is RED exactly when the
    result is FAKE and the confidence is at least 65, GREEN exactly when
    the result is REAL and the confidence is at least 60, and YELLOW in
    every other case.  The five sample values of the specification are
    included. *)
Theorem C1_get_result_color_thresholds :
  (forall d : verdict,
     let r := get (result d) "UNSURE" in
     let c := float (get (confidence d) (PyInt 0)) in
     (exists col, get_result_color (JDict d) = Ok col /\ is_color col) /\
     (get_result_color (JDict d) = Ok "RED" <->
        r = "FAKE" /\ (inject_Z 65 <= c)%Q) /\
     (get_result_color (JDict d) = Ok "GREEN" <->
        r = "REAL" /\ (inject_Z 60 <= c)%Q) /\
     (get_result_color (JDict d) = Ok "YELLOW" <->
        ~ (r = "FAKE" /\ (inject_Z 65 <= c)%Q) /\
        ~ (r = "REAL" /\ (inject_Z 60 <= c)%Q))) /\
  get_result_color (pair_verdict "FAKE" (PyInt 65)) = Ok "RED" /\
  get_result_color (pair_verdict "FAKE" (PyInt 64)) = Ok "YELLOW" /\
  get_result_color (pair_verdict "REAL" (PyInt 60)) = Ok "GREEN" /\
  get_result_color (pair_verdict "REAL" (PyInt 59)) = Ok "YELLOW" /\
  get_result_color (pair_verdict "UNSURE" (PyInt 100)) = Ok "YELLOW".
Proof.
  split; [|repeat split; reflexivity].
  intros d r c. rewrite get_result_color_dict. fold r c.
  unfold CONFIDENCE_THRESHOLD_FAKE, CONFIDENCE_THRESHOLD_REAL, is_color.
  destruct (String.eqb_spec r "FAKE") as [Hf|Hf];
    destruct (String.eqb_spec r "REAL") as [Hr|Hr];
    destruct (ge c 65) eqn:H65; destruct (ge c 60) eqn:H60; simpl;
    try (rewrite ge_true_iff in H65); try (rewrite ge_false_iff in H65);
    try (rewrite ge_true_iff in H60); try (rewrite ge_false_iff in H60);
    try (exfalso; congruence);
    (split; [eexists; split; [reflexivity|tauto]|]);
    repeat split; intros; try discriminate; try tauto;
    try (intros [? ?]; tauto); try (exfalso; tauto);
    try (destruct H as [? ?]; tauto).
Qed.

(* ================================================================== *)
(** * The confidence bar *)
(* ================================================================== *)

Lemma app_str_assoc (a b c : string) : (a +:+ b) +:+ c = a +:+ (b +:+ c).
Proof.
  induction a as [|x a IH]; [reflexivity|].
  change (String x ((a +:+ b) +:+ c) = String x (a +:+ (b +:+ c))).
  rewrite IH. reflexivity.
Qed.

Lemma render_cells_app (l1 l2 : list cell) :
  render_cells (l1 ++ l2) = render_cells l1 +:+ render_cells l2.
Proof.
  induction l1 as [|c l1 IH]; simpl; [reflexivity|].
  rewrite IH, app_str_assoc. reflexivity.
Qed.

Lemma render_cells_repeat (c : cell) (n : nat) :
  render_cells (repeat c n) = repeat_str (render_cell c) n.
Proof. induction n as [|n IH]; simpl; [reflexivity|]. rewrite <- IH. reflexivity. Qed.

(** [round(confidence / 10)] in integer arithmetic, for every integer. *)
Lemma filled_cells_half_even (c : Z) : filled_cells c = half_even_div10 c.
Proof.
  unfold filled_cells, half_even_div10, Py.round, truediv.
  assert (Hq : Qfloor (inject_Z c / inject_Z 10) = (c / 10)%Z).
  { unfold Qdiv, Qmult, Qinv, inject_Z, Qfloor. simpl. rewrite Z.mul_1_r. reflexivity. }
  rewrite Hq.
  assert (Hc : ((inject_Z c / inject_Z 10 - inject_Z (c / 10)) ?= 1 # 2)%Q
               = (c mod 10 ?= 5)%Z).
  { unfold Qcompare, Qminus, Qplus, Qopp, Qdiv, Qmult, Qinv, inject_Z. simpl.
    pose proof (Z.div_mod c 10 ltac:(lia)) as Hd.
    destruct (Z.compare_spec (c mod 10) 5) as [H|H|H].
    - apply Z.compare_eq_iff. lia.
    - apply Z.compare_lt_iff. lia.
    - apply Z.compare_gt_iff. lia. }
  rewrite Hc.
  destruct (Z.compare_spec (c mod 10) 5) as [H|H|H].
  - rewrite H. simpl. reflexivity.
  - destruct (Z.ltb_spec (c mod 10) 5); [reflexivity|lia].
  - destruct (Z.ltb_spec (c mod 10) 5); [lia|].
    destruct (Z.ltb_spec 5 (c mod 10)); [reflexivity|lia].
Qed.

Lemma half_even_div10_range (c : Z) :
  (0 <= c <= 100)%Z -> (0 <= half_even_div10 c <= 10)%Z.
Proof.
  intros H. unfold half_even_div10.
  pose proof (Z.div_mod c 10 ltac:(lia)) as Hd.
  pose proof (Z.mod_pos_bound c 10 ltac:(lia)) as Hm.
  destruct (Z.ltb_spec (c mod 10) 5); [lia|].
  destruct (Z.ltb_spec 5 (c mod 10)); [lia|].
  destruct (Z.even (c / 10)); lia.
Qed.

(** The two rounding policies differ exactly at the confidences 5, 25, 45,
    ... (and -15, -35, ...): a tie whose lower neighbour is even. *)
Lemma half_even_vs_half_up (c : Z) :
  half_even_div10 c <> half_up_div10 c <-> (c mod 20 = 5)%Z.
Proof.
  unfold half_even_div10, half_up_div10.
  pose proof (Z.div_mod c 10 ltac:(lia)) as Hd.
  pose proof (Z.mod_pos_bound c 10 ltac:(lia)) as Hm.
  pose proof (Z.div_mod (c + 5) 10 ltac:(lia)) as Hd5.
  pose proof (Z.mod_pos_bound (c + 5) 10 ltac:(lia)) as Hm5.
  pose proof (Z.div_mod c 20 ltac:(lia)) as Hd20.
  pose proof (Z.mod_pos_bound c 20 ltac:(lia)) as Hm20.
  destruct (Z.ltb_spec (c mod 10) 5); [lia|].
  destruct (Z.ltb_spec 5 (c mod 10)); [lia|].
  destruct (Z.even (c / 10)) eqn:He.
  - apply Z.even_spec in He. destruct He as [k Hk]. lia.
  - assert (Ho : Z.odd (c / 10) = true) by (rewrite <- Z.negb_even, He; reflexivity).
    apply Z.odd_spec in Ho. destruct Ho as [k Hk]. lia.
Qed.

(** The two string products of the source are the cells of the bar when
    the number of filled cells is between 0 and 10. *)
Lemma confidence_bar_cells (c : Z) :
  (0 <= filled_cells c <= 10)%Z ->
  confidence_bar c =
  render_cells (repeat Filled (Z.to_nat (filled_cells c))
                ++ repeat Empty (10 - Z.to_nat (filled_cells c))).
Proof.
  intros H. unfold confidence_bar, mul.
  rewrite render_cells_app, !render_cells_repeat. simpl render_cell.
  f_equal. f_equal. lia.
Qed.

(** Outside that range the bar has more than ten cells: a negative product
    is the empty string. *)
Example confidence_bar_150 :
  confidence_bar 150 = render_cells (repeat Filled 15).
Proof. reflexivity. Qed.

(** The bar is part of the formatted reply. *)
Lemma format_analysis_reply_bar (d : verdict) :
  exists before after,
    format_analysis_reply (JDict d) =
    Ok (before +:+ "*Confidence:* "
          +:+ confidence_bar (int (get (confidence d) (PyInt 0)))
          +:+ " (" +:+ str_of_int (int (get (confidence d) (PyInt 0))) +:+ "%)" +:+ after).
Proof.
  unfold format_analysis_reply. rewrite get_result_color_dict. simpl attr_get. cbv iota beta.
  set (col := if _ : bool then "RED" else _).
  set (heading := if String.eqb col "RED" then _ else _).
  destruct (red_flags d) as [flags|]; [destruct (truthy_list flags)|];
    eexists (heading +:+ nl +:+ nl), _; rewrite ?app_str_assoc; reflexivity.
Qed.

(** C2, as stated, fails: at confidence 25 rounding half up gives 3 filled
    cells, and the reply shows 2 filled and 8 empty cells. *)
Lemma C2_counterexample_confidence_25 :
  half_up_div10 25 = 3%Z /\
  filled_cells 25 = 2%Z /\
  confidence_bar 25 = render_cells (repeat Filled 2 ++ repeat Empty 8) /\
  confidence_bar 25 <> render_cells (repeat Filled 3 ++ repeat Empty 7) /\
  format_analysis_reply (pair_verdict "UNSURE" (PyInt 25)) =
    Ok (Glyph.WARNING_SIGN +:+ " *Result: Unsure* (Yellow Flag)" +:+ nl +:+ nl
        +:+ "*Confidence:* " +:+ render_cells (repeat Filled 2 ++ repeat Empty 8)
        +:+ " (25%)" +:+ nl +:+ "*Reason:* N/A" +:+ nl +:+ nl
        +:+ Glyph.FLAG_GB +:+ " *Summary:*" +:+ nl +:+ "> N/A" +:+ nl +:+ nl
        +:+ Glyph.FLAG_IN +:+ " *" +:+ Glyph.HI_SUMMARY +:+ ":*" +:+ nl +:+ "> N/A" +:+ nl).
Proof.
  repeat split; try reflexivity.
  intros H. apply (f_equal String.length) in H. vm_compute in H. discriminate H.
Qed.

(** C2, amended.  For a confidence between 0 and 100 the bar of the reply
    has exactly 10 cells; the first [filled] are filled and the others
    empty, where [filled] is [confidence / 10] rounded to the nearest
    integer with a tie going to the even neighbour (Python's [round]). *)
Theorem C2_confidence_bar_half_even (d : verdict) :
  let c := int (get (confidence d) (PyInt 0)) in
  (0 <= c <= 100)%Z ->
  let filled := half_even_div10 c in
  let cells := (repeat Filled (Z.to_nat filled) ++ repeat Empty (10 - Z.to_nat filled))%list in
  filled_cells c = filled /\
  (0 <= filled <= 10)%Z /\
  length cells = 10 /\
  confidence_bar c = render_cells cells /\
  exists before after,
    format_analysis_reply (JDict d) =
    Ok (before +:+ "*Confidence:* " +:+ render_cells cells
          +:+ " (" +:+ str_of_int c +:+ "%)" +:+ after).
Proof.
  intros c Hc filled cells.
  pose proof (half_even_div10_range c Hc) as Hr. fold filled in Hr.
  pose proof (filled_cells_half_even c) as Hf. fold filled in Hf.
  assert (Hbar : confidence_bar c = render_cells cells).
  { unfold cells. rewrite <- Hf. apply confidence_bar_cells. rewrite Hf. exact Hr. }
  repeat split; try assumption; try lia.
  - unfold cells. rewrite length_app, !repeat_length. lia.
  - destruct (format_analysis_reply_bar d) as (b & a & H).
    exists b, a. rewrite H. fold c. rewrite Hbar. reflexivity.
Qed.

Lemma C2_witness_confidence_35 :
  (0 <= 35 <= 100)%Z /\
  filled_cells 35 = 4%Z /\
  confidence_bar 35 = render_cells (repeat Filled 4 ++ repeat Empty 6).
Proof.
  split; [lia|].
  destruct (C2_confidence_bar_half_even
              (Verdict (Some "FAKE") (Some (PyInt 35)) None None None None))
    as (H1 & _ & _ & H2 & _).
  - simpl. lia.
  - split; [exact H1 | exact H2].
Defined.

(* ================================================================== *)
(** * Rules for properties that every operation keeps *)
(* ================================================================== *)

Lemma last_items_length {A} (k : nat) (l : list A) :
  k <> 0 -> length (last_items k l) <= k.
Proof.
  intros Hk. destruct k as [|k]; [congruence|].
  unfold last_items. rewrite length_drop. lia.
Qed.

(** [P w w'] relates the world before an operation to the world after it.
    When [P] is reflexive and transitive and holds across each elementary
    write of the program (a log line, a Telegram call, a request to the
    model, the capture of a complaint, the rewriting of the file, the
    creation of a record, the assignment of a history of at most
    [CHAT_HISTORY_LIMIT] entries), it holds across every handler and every
    sequence of updates, whether they return or raise.  Each lemma depends
    only on the writes its handler can make. *)
Section Frame.
Variable P : world -> world -> Prop.

Hypothesis P_refl : forall w, P w w.
Hypothesis P_trans : forall w1 w2 w3, P w1 w2 -> P w2 w3 -> P w1 w3.
Hypothesis P_log : forall w l, P w (add_log l w).
Hypothesis P_delivered : forall w c, P w (add_delivered c w).
Hypothesis P_requested : forall w r, P w (add_requested r w).
Hypothesis P_complaint : forall w key c,
  P w (set_bot_user_data (set_last_complaint key c (bot_user_data w)) w).
Hypothesis P_save : forall w, P w (set_user_data_json (JsonStore (bot_user_data w)) w).
Hypothesis P_ensure : forall w key,
  P w (set_bot_user_data (ensure_record key (bot_user_data w)) w).
Hypothesis P_history : forall w key h,
  length h <= CHAT_HISTORY_LIMIT ->
  P w (set_bot_user_data (set_history key h (bot_user_data w)) w).

Lemma preserves_ret {A} (a : A) : preserves P (ret a).
Proof. intros w. apply P_refl. Qed.

Lemma preserves_raise {A} (e : exn) : preserves P (@raise A e).
Proof. intros w. apply P_refl. Qed.

Lemma preserves_lift {A} (o : outcome A) : preserves P (lift o).
Proof. intros w. apply P_refl. Qed.

Lemma preserves_gets {A} (f : world -> A) : preserves P (gets f).
Proof. intros w. apply P_refl. Qed.

Lemma preserves_bind {A B} (m : M A) (k : A -> M B) :
  preserves P m -> (forall a, preserves P (k a)) -> preserves P (bind m k).
Proof.
  intros Hm Hk w. unfold bind. specialize (Hm w).
  destruct (m w) as [[a|e] w1]; simpl in *; [|exact Hm].
  eapply P_trans; [exact Hm|apply Hk].
Qed.

Lemma preserves_try_except {A} (m : M A) (h : exn -> M A) :
  preserves P m -> (forall e, preserves P (h e)) -> preserves P (try_except m h).
Proof.
  intros Hm Hh w. unfold try_except. specialize (Hm w).
  destruct (m w) as [[a|e] w1]; simpl in *; [exact Hm|].
  eapply P_trans; [exact Hm|apply Hh].
Qed.

Lemma preserves_modify (f : world -> world) :
  (forall w, P w (f w)) -> preserves P (modify f).
Proof. intros H w. apply H. Qed.

Lemma preserves_log_event u a d : preserves P (log_event u a d).
Proof. intros w. apply P_log. Qed.

Lemma preserves_gemini_call E r : preserves P (gemini_call E r).
Proof. intros w. apply P_requested. Qed.

Lemma preserves_bot_call E c : preserves P (bot_call E c).
Proof.
  intros w. unfold bot_call. destruct (telegram_api E c); simpl; auto.
Qed.

Lemma preserves_save_user_data : 
  preserves P (bind (gets bot_user_data) save_user_data).
Proof. intros w. apply P_save. Qed.

(** Decompose a computation along [bind], [try_except] and its branches;
    [known] closes the calls already dealt with. *)
Ltac frame_with known :=
  repeat first
    [ known
    | apply preserves_save_user_data
    | apply preserves_bind
    | apply preserves_try_except
    | apply preserves_ret | apply preserves_raise | apply preserves_lift
    | apply preserves_gets | apply preserves_log_event
    | apply preserves_gemini_call | apply preserves_bot_call
    | match goal with |- forall _, _ => intro end
    | match goal with
      | |- preserves _ (if ?b then _ else _) => destruct b
      | |- preserves _ (match ?x with _ => _ end) => destruct x
      end ].

Lemma preserves_structured_analysis E q i :
  preserves P (call_gemini_for_structured_analysis E q i).
Proof. unfold call_gemini_for_structured_analysis. frame_with fail. Qed.

Lemma preserves_image_description E i c :
  preserves P (call_gemini_for_image_description E i c).
Proof. unfold call_gemini_for_image_description. frame_with fail. Qed.

Lemma preserves_chat E q h : preserves P (call_gemini_for_chat E q h).
Proof. unfold call_gemini_for_chat. frame_with fail. Qed.

Lemma preserves_send_safe_reply E m b p : preserves P (send_safe_reply E m b p).
Proof. unfold send_safe_reply. frame_with fail. Qed.

Lemma preserves_run_analysis E m c i : preserves P (run_analysis E m c i).
Proof.
  unfold run_analysis.
  frame_with ltac:(first [ apply preserves_structured_analysis
                         | apply preserves_modify; intros ?; apply P_complaint ]).
Qed.

Lemma preserves_send_welcome E m : preserves P (send_welcome E m).
Proof. unfold send_welcome. frame_with ltac:(apply preserves_send_safe_reply). Qed.

Lemma preserves_search_command E m : preserves P (search_command E m).
Proof.
  unfold search_command, try_except_IndexError.
  frame_with ltac:(apply preserves_run_analysis).
Qed.

Lemma preserves_complaint_cmd E m : preserves P (complaint_cmd E m).
Proof. unfold complaint_cmd. frame_with ltac:(apply preserves_send_safe_reply). Qed.

Lemma preserves_handle_photo E m : preserves P (handle_photo E m).
Proof.
  unfold handle_photo, fetch_photo.
  frame_with ltac:(first [ apply preserves_run_analysis
                         | apply preserves_send_safe_reply
                         | apply preserves_image_description ]).
Qed.

Lemma preserves_handle_chat E m : preserves P (handle_chat E m).
Proof.
  unfold handle_chat.
  frame_with ltac:(first [ apply preserves_chat
                         | apply preserves_send_safe_reply
                         | apply preserves_modify; intros ?; apply P_ensure
                         | apply preserves_modify; intros ?; apply P_history;
                           apply last_items_length; discriminate ]).
Qed.

Lemma preserves_handler E ev : preserves P (handler E ev).
Proof.
  destruct ev; simpl.
  - apply preserves_send_welcome.
  - apply preserves_search_command.
  - apply preserves_complaint_cmd.
  - apply preserves_handle_photo.
  - apply preserves_handle_chat.
Qed.

Lemma preserves_run (l : list (env * event)) (w : world) : P w (run w l).
Proof.
  revert w. induction l as [|x l IH]; intros w; simpl; [apply P_refl|].
  eapply P_trans; [|apply IH]. unfold step. apply preserves_handler.
Qed.
End Frame.

(* ================================================================== *)
(** * What the calls return and what they leave unchanged *)
(* ================================================================== *)

(** Unfold the operations of [M] and compute. *)
Ltac run_m :=
  unfold bind, ret, raise, try_except, lift, gets, modify, log_event,
    gemini_call, save_user_data; simpl.

Lemma structured_analysis_spec E q i w :
  let r := call_gemini_for_structured_analysis E q i w in
  fst r = Ok (analysis_result E q i) /\
  same_store w (snd r) /\
  delivered (snd r) = delivered w /\
  requested (snd r) = (requested w ++ analysis_requests q i)%list.
Proof.
  unfold call_gemini_for_structured_analysis, analysis_result, analysis_requests,
    same_store.
  fold (no_content q i). destruct (no_content q i).
  - run_m. rewrite app_nil_r. auto.
  - fold (analysis_request q i). run_m.
    destruct (gemini E (analysis_request q i)) as [resp|e]; simpl; [|auto].
    destruct (truthy_list (resp_parts resp)); simpl; [|auto].
    destruct (json_loads E (strip (resp_text resp))); simpl; auto.
Qed.

Lemma chat_spec E q h w :
  let r := call_gemini_for_chat E q h w in
  fst r = Ok (chat_response E q h) /\
  same_store w (snd r) /\
  delivered (snd r) = delivered w /\
  requested (snd r) =
    (requested w ++ [SendMessage (last_items CHAT_HISTORY_LIMIT h) q])%list.
Proof.
  unfold call_gemini_for_chat, chat_response, same_store. run_m.
  destruct (gemini E _) as [resp|e]; simpl; auto.
Qed.

Lemma send_safe_reply_spec E m b p w :
  let r := send_safe_reply E m b p w in
  fst r = Ok tt /\ same_store w (snd r) /\ requested (snd r) = requested w.
Proof.
  unfold send_safe_reply, bot_call, same_store. run_m.
  destruct (telegram_api E _); simpl; auto.
Qed.

Lemma format_analysis_reply_ok d : exists s, format_analysis_reply (JDict d) = Ok s.
Proof. destruct (format_analysis_reply_bar d) as (b & a & H). eauto. Qed.

Lemma run_analysis_store E msg content img w :
  let w' := snd (run_analysis E msg content img w) in
  match captured_complaint E msg content img with
  | Some c =>
      bot_user_data w' = set_last_complaint (user_id_str msg) c (bot_user_data w) /\
      user_data_json w' = JsonStore (bot_user_data w')
  | None => same_store w w'
  end.
Proof.
  intros w'. subst w'. unfold run_analysis, captured_complaint, same_store.
  fold (thinking_call msg).
  unfold bot_call, bind, try_except, lift.
  destruct (telegram_api E (thinking_call msg)) as [tid|e];
    [|split; reflexivity].
  pose proof (structured_analysis_spec E content img
                (add_delivered (thinking_call msg) w)) as (Hv & [Hs1 Hs2] & _).
  destruct (call_gemini_for_structured_analysis E content img _) as [r w1].
  simpl in Hv, Hs1, Hs2. subst r.
  destruct (analysis_result E content img) as [d|].
  - destruct (format_analysis_reply_ok d) as [s Hs]. rewrite Hs.
    rewrite get_result_color_dict.
    set (col := if _ : bool then "RED" else _).
    destruct (String.eqb col "RED"); run_m.
    + destruct (telegram_api E _); simpl; rewrite Hs1; auto.
      destruct (telegram_api E _); simpl; auto.
    + destruct (telegram_api E _); simpl; auto.
      destruct (telegram_api E _); simpl; auto.
  - run_m. destruct (telegram_api E _); simpl; auto.
Qed.

(** Reading the dictionary after each of its four updates. *)
Lemma stored_history_ensure u k (d : store) :
  stored_history u (ensure_record k d) = stored_history u d.
Proof.
  unfold ensure_record, stored_history.
  destruct (d !! k) eqn:Hk; [reflexivity|].
  destruct (decide (k = u)) as [->|Hne].
  - rewrite lookup_insert_eq, Hk. reflexivity.
  - rewrite lookup_insert_ne by exact Hne. reflexivity.
Qed.

Lemma stored_complaint_ensure u k (d : store) :
  stored_complaint u (ensure_record k d) = stored_complaint u d.
Proof.
  unfold ensure_record, stored_complaint.
  destruct (d !! k) eqn:Hk; [reflexivity|].
  destruct (decide (k = u)) as [->|Hne].
  - rewrite lookup_insert_eq, Hk. reflexivity.
  - rewrite lookup_insert_ne by exact Hne. reflexivity.
Qed.

Lemma stored_history_set_history u k h (d : store) :
  stored_history u (set_history k h d) =
  if decide (k = u) then match d !! k with Some _ => h | None => [] end
  else stored_history u d.
Proof.
  unfold set_history, stored_history.
  destruct (decide (k = u)) as [->|Hne].
  - destruct (d !! u) eqn:Hk; [rewrite lookup_insert_eq|rewrite Hk]; reflexivity.
  - destruct (d !! k); [rewrite lookup_insert_ne by exact Hne|]; reflexivity.
Qed.

Lemma stored_complaint_set_history u k h (d : store) :
  stored_complaint u (set_history k h d) = stored_complaint u d.
Proof.
  unfold set_history, stored_complaint.
  destruct (d !! k) eqn:Hk; [|reflexivity].
  destruct (decide (k = u)) as [->|Hne].
  - rewrite lookup_insert_eq, Hk. reflexivity.
  - rewrite lookup_insert_ne by exact Hne. reflexivity.
Qed.

Lemma stored_history_set_last_complaint u k c (d : store) :
  stored_history u (set_last_complaint k c d) = stored_history u d.
Proof.
  unfold set_last_complaint, stored_history.
  destruct (decide (k = u)) as [->|Hne].
  - rewrite lookup_insert_eq. destruct (d !! u); reflexivity.
  - rewrite lookup_insert_ne by exact Hne. reflexivity.
Qed.

Lemma stored_complaint_set_last_complaint u k c (d : store) :
  stored_complaint u (set_last_complaint k c d) =
  if decide (k = u) then Some c else stored_complaint u d.
Proof.
  unfold set_last_complaint, stored_complaint.
  destruct (decide (k = u)) as [->|Hne].
  - rewrite lookup_insert_eq. reflexivity.
  - rewrite lookup_insert_ne by exact Hne. reflexivity.
Qed.

Lemma set_last_complaint_twice k c1 c2 (d : store) :
  set_last_complaint k c2 (set_last_complaint k c1 d) = set_last_complaint k c2 d.
Proof.
  unfold set_last_complaint. rewrite lookup_insert_eq. simpl.
  rewrite insert_insert_eq. destruct (d !! k); reflexivity.
Qed.

Lemma ensure_record_lookup k (d : store) : is_Some (ensure_record k d !! k).
Proof.
  unfold ensure_record. destruct (d !! k) eqn:Hk.
  - rewrite Hk. eauto.
  - rewrite lookup_insert_eq. eauto.
Qed.

Lemma handle_chat_store E msg w :
  let uid := user_id_str msg in
  let hist := stored_history uid (bot_user_data w) in
  let response := chat_response E (text msg) hist in
  let w' := snd (handle_chat E msg w) in
  fst (handle_chat E msg w) = Ok tt /\
  if contains Glyph.WARNING_SIGN response
  then bot_user_data w' = ensure_record uid (bot_user_data w) /\
       user_data_json w' = user_data_json w
  else bot_user_data w' =
         set_history uid
           (last_items CHAT_HISTORY_LIMIT (hist ++ turn_pair (text msg) response))
           (ensure_record uid (bot_user_data w)) /\
       user_data_json w' = JsonStore (bot_user_data w').
Proof.
  intros uid hist response w'. subst w'. unfold handle_chat. fold uid.
  unfold bind, modify, gets.
  change (bot_user_data (set_bot_user_data (ensure_record uid (bot_user_data w)) w))
    with (ensure_record uid (bot_user_data w)).
  rewrite stored_history_ensure. fold hist.
  set (w0 := set_bot_user_data _ w).
  pose proof (chat_spec E (text msg) hist w0) as (Hv & [Hs1 Hs2] & _).
  destruct (call_gemini_for_chat E (text msg) hist w0) as [r w1].
  simpl in Hv, Hs1, Hs2. subst r. fold response.
  pose proof (send_safe_reply_spec E msg response None w1) as (Hv & [Hs3 Hs4] & _).
  destruct (send_safe_reply E msg response None w1) as [r w2].
  simpl in Hv, Hs3, Hs4. subst r.
  assert (H0 : bot_user_data w2 = ensure_record uid (bot_user_data w)).
  { rewrite Hs3, Hs1. reflexivity. }
  assert (H1 : user_data_json w2 = user_data_json w).
  { rewrite Hs4, Hs2. reflexivity. }
  destruct (contains Glyph.WARNING_SIGN response); run_m.
  - auto.
  - rewrite H0. auto.
Qed.

(* ================================================================== *)
(** * The structured analysis call *)
(* ================================================================== *)

(** [call_gemini_for_structured_analysis] returns a value in every world
    and for every outside world: nothing escapes its [except]. *)
Lemma structured_analysis_never_raises E q i w :
  exists j, fst (call_gemini_for_structured_analysis E q i w) = Ok j.
Proof.
  exists (analysis_result E q i). apply (structured_analysis_spec E q i w).
Qed.

(** C3, as stated, fails on the text of the reason: the fallback dictionary
    has the reason "AI error occurred." with a final full stop. *)
Lemma C3_counterexample_reason_text :
  exists d,
    fst (call_gemini_for_structured_analysis
           offline "Win a free iPhone now" None fresh_world) = Ok (JDict d) /\
    reason d = Some "AI error occurred." /\
    reason d <> Some "AI error occurred".
Proof.
  exists AI_ERROR. split; [reflexivity|]. split; [reflexivity|]. discriminate.
Qed.

(** C3, amended.  When there is content and the model call fails (the
    request raises, the answer has no parts, or its text is not JSON),
    [call_gemini_for_structured_analysis] returns the fallback dictionary
    (UNSURE, confidence 40, reason "AI error occurred.", the two fallback
    texts, no red flags), does not raise, logs the error and leaves the
    store alone. *)
Theorem C3_analysis_failure_fallback E query img w :
  no_content query img = false ->
  ((exists e, gemini E (analysis_request query img) = Raise e) \/
   (exists resp, gemini E (analysis_request query img) = Ok resp /\
                 resp_parts resp = []) \/
   (exists resp, gemini E (analysis_request query img) = Ok resp /\
                 json_loads E (strip (resp_text resp)) = None)) ->
  let r := call_gemini_for_structured_analysis E query img w in
  fst r = Ok (JDict AI_ERROR) /\
  AI_ERROR = Verdict (Some "UNSURE") (Some (PyInt 40)) (Some "AI error occurred.")
                     (Some "Could not analyze due to an AI error.")
                     (Some Glyph.HI_AI_ERROR) (Some []) /\
  same_store w (snd r) /\
  exists e, last (bot_logs (snd r)) =
            Some (LogLine SYSTEM "ERROR" ("Structured analysis failed: " +:+ repr e)).
Proof.
  intros Hnc Hfail r. subst r.
  unfold call_gemini_for_structured_analysis, same_store.
  fold (no_content query img). rewrite Hnc. fold (analysis_request query img).
  run_m.
  destruct Hfail as [[e He]|[(resp & He & Hp)|(resp & He & Hj)]]; rewrite He; simpl.
  - repeat split. exists e. rewrite last_snoc. reflexivity.
  - rewrite Hp. simpl. repeat split.
    exists (Exn ValueError "Blocked by AI safety filter.").
    rewrite last_snoc. reflexivity.
  - destruct (truthy_list (resp_parts resp)); simpl.
    + rewrite Hj. simpl. repeat split.
      exists (Exn JSONDecodeError "Expecting value").
      rewrite last_snoc. reflexivity.
    + repeat split.
      exists (Exn ValueError "Blocked by AI safety filter.").
      rewrite last_snoc. reflexivity.
Qed.

Lemma C3_witness_offline :
  no_content "Win a free iPhone now" None = false /\
  fst (call_gemini_for_structured_analysis
         offline "Win a free iPhone now" None fresh_world) = Ok (JDict AI_ERROR).
Proof.
  split; [reflexivity|].
  apply (C3_analysis_failure_fallback offline "Win a free iPhone now" None fresh_world).
  - reflexivity.
  - left. eexists. reflexivity.
Defined.

(** A request reaches the remote model exactly when there is content. *)
Lemma run_analysis_requested E msg content img w :
  requested (snd (run_analysis E msg content img w)) = requested w \/
  requested (snd (run_analysis E msg content img w)) =
    (requested w ++ analysis_requests content img)%list.
Proof.
  unfold run_analysis. fold (thinking_call msg).
  unfold bot_call, bind, try_except, lift.
  destruct (telegram_api E (thinking_call msg)) as [tid|e]; [|left; reflexivity].
  right.
  pose proof (structured_analysis_spec E content img
                (add_delivered (thinking_call msg) w)) as (Hv & _ & _ & Hr).
  destruct (call_gemini_for_structured_analysis E content img _) as [r w1].
  simpl in Hv, Hr. subst r.
  destruct (analysis_result E content img) as [d|].
  - destruct (format_analysis_reply_ok d) as [s Hs]. rewrite Hs.
    rewrite get_result_color_dict.
    set (col := if _ : bool then "RED" else _).
    destruct (String.eqb col "RED"); run_m.
    + destruct (telegram_api E _); simpl; auto.
      destruct (telegram_api E _); simpl; auto.
    + destruct (telegram_api E _); simpl; auto.
      destruct (telegram_api E _); simpl; auto.
  - run_m. destruct (telegram_api E _); simpl; auto.
Qed.

(** C6.  For empty text and no image the analysis returns the dictionary
    (UNSURE, confidence 0, reason "No content provided.") and leaves the
    world as it is: no request is sent to the remote model, neither by the
    call nor by [run_analysis] around it.  With content there is a
    request. *)
Theorem C6_empty_content_short_circuit :
  (forall E w,
     call_gemini_for_structured_analysis E "" None w = (Ok (JDict NO_CONTENT), w)) /\
  result NO_CONTENT = Some "UNSURE" /\
  confidence NO_CONTENT = Some (PyInt 0) /\
  reason NO_CONTENT = Some "No content provided." /\
  (forall E msg w,
     requested (snd (run_analysis E msg "" None w)) = requested w) /\
  (forall E query img w,
     no_content query img = false ->
     requested (snd (call_gemini_for_structured_analysis E query img w)) =
       (requested w ++ [analysis_request query img])%list).
Proof.
  repeat split.
  - intros E msg w.
    destruct (run_analysis_requested E msg "" None w) as [H|H]; rewrite H;
      [reflexivity|]. unfold analysis_requests. simpl. apply app_nil_r.
  - intros E query img w Hnc.
    pose proof (structured_analysis_spec E query img w) as (_ & _ & _ & Hr).
    simpl in Hr. rewrite Hr. unfold analysis_requests. rewrite Hnc. reflexivity.
Qed.

Lemma C6_witness_request_with_content :
  no_content "Win a free iPhone now" None = false /\
  requested (snd (call_gemini_for_structured_analysis
                    offline "Win a free iPhone now" None fresh_world)) =
    [analysis_request "Win a free iPhone now" None].
Proof.
  split; [reflexivity|].
  destruct C6_empty_content_short_circuit as (_ & _ & _ & _ & _ & H).
  apply (H offline "Win a free iPhone now" None fresh_world). reflexivity.
Defined.

(* ================================================================== *)
(** * Loading the store *)
(* ================================================================== *)

(** What [load_user_data] does for every state of the file. *)
Lemma load_user_data_cases (w : world) :
  load_user_data w =
  (match user_data_json w with
   | NoFile | NotJson => Ok (LStore ∅)
   | NoAccess => Raise (Exn PermissionError "[Errno 13] Permission denied: 'user_data.json'")
   | NotUtf8 => Raise (Exn UnicodeDecodeError "'utf-8' codec can't decode byte")
   | TooDeep => Raise (Exn RecursionError "maximum recursion depth exceeded")
   | JsonOther => Ok LOther
   | JsonStore data => Ok (LStore data)
   end, w).
Proof.
  unfold load_user_data. run_m. destruct (user_data_json w); reflexivity.
Qed.




(* ================================================================== *)
(** * /search without text *)
(* ================================================================== *)

Lemma format_no_content : format_analysis_reply (JDict NO_CONTENT) = Ok NO_CONTENT_REPLY.
Proof. reflexivity. Qed.

Lemma color_no_content : get_result_color (JDict NO_CONTENT) = Ok "YELLOW".
Proof. reflexivity. Qed.

Lemma structured_analysis_empty E w :
  call_gemini_for_structured_analysis E "" None w = (Ok (JDict NO_CONTENT), w).
Proof. reflexivity. Qed.

(** C10.  [/search] with nothing after it is answered like an analysis of
    empty content: [search_command] is [run_analysis] on the empty string
    and no image, it sends nothing to the remote model and leaves the store
    alone, and when Telegram accepts the two calls the user gets the
    placeholder and then the formatted reply of the dictionary (UNSURE,
    confidence 0, "No content provided."). *)
Theorem C10_search_without_text E msg w tid i :
  text msg = "/search" ->
  telegram_api E (thinking_call msg) = Ok tid ->
  telegram_api E (EditMessageText NO_CONTENT_REPLY (chat_id msg) tid (Some "Markdown"))
    = Ok i ->
  search_command E msg w = run_analysis E msg "" None w /\
  format_analysis_reply (JDict NO_CONTENT) = Ok NO_CONTENT_REPLY /\
  search_command E msg w =
  (Ok tt,
   World (bot_user_data w) (user_data_json w)
         (bot_logs w ++ [LogLine (LogUser (from_user msg)) "ANALYSIS_SUCCESS"
                                 "Result=UNSURE"])
         (delivered w ++ [thinking_call msg;
                          EditMessageText NO_CONTENT_REPLY (chat_id msg) tid
                                          (Some "Markdown")])
         (requested w)).
Proof.
  intros Ht Hthink Hedit.
  assert (Hs : search_command E msg w = run_analysis E msg "" None w).
  { unfold search_command, try_except_IndexError, try_except, bind, lift.
    rewrite Ht. simpl. reflexivity. }
  split; [exact Hs|]. split; [reflexivity|].
  rewrite Hs. unfold run_analysis. fold (thinking_call msg).
  unfold bind, try_except, lift, bot_call. rewrite Hthink.
  rewrite structured_analysis_empty, format_no_content, color_no_content.
  change (String.eqb "YELLOW" "RED") with false. cbv iota beta.
  unfold ret. rewrite Hedit. cbn [attr_get].
  unfold log_event, modify, add_log, add_delivered.
  cbn [bot_user_data user_data_json bot_logs delivered requested result NO_CONTENT
       str_of_get].
  rewrite <- app_assoc. reflexivity.
Qed.

Lemma C10_witness_offline :
  text (message_of_42 "/search") = "/search" /\
  fst (search_command offline (message_of_42 "/search") fresh_world) = Ok tt /\
  delivered (snd (search_command offline (message_of_42 "/search") fresh_world)) =
    [thinking_call (message_of_42 "/search");
     EditMessageText NO_CONTENT_REPLY 1000 1 (Some "Markdown")].
Proof.
  split; [reflexivity|].
  destruct (C10_search_without_text offline (message_of_42 "/search") fresh_world 1 1)
    as (_ & _ & H); try reflexivity.
  rewrite H. split; reflexivity.
Defined.

(* ================================================================== *)
(** * Complaint capture *)
(* ================================================================== *)

Lemma captured_complaint_red E msg content img tid d :
  telegram_api E (thinking_call msg) = Ok tid ->
  analysis_result E content img = JDict d ->
  get_result_color (JDict d) = Ok "RED" ->
  captured_complaint E msg content img = Some (complaint_text_of content d).
Proof.
  intros H1 H2 H3. unfold captured_complaint. rewrite H1, H2, H3. reflexivity.
Qed.

Lemma captured_complaint_not_red E msg content img :
  get_result_color (analysis_result E content img) <> Ok "RED" ->
  captured_complaint E msg content img = None.
Proof.
  intros H. unfold captured_complaint.
  destruct (telegram_api E (thinking_call msg)); [|reflexivity].
  destruct (analysis_result E content img) as [d|]; [|reflexivity].
  destruct (get_result_color (JDict d)) as [col|]; [|reflexivity].
  destruct (String.eqb_spec col "RED") as [->|Hne]; [congruence|reflexivity].
Qed.

(** The complaint text, spelled out: the content, an empty line, and the
    reason, for which a dictionary without the key [reason] gives the text
    [None]. *)
Lemma complaint_text_of_spelled content d :
  complaint_text_of content d =
  "Content: " +:+ content +:+ nl +:+ nl +:+ "AI Analysis: "
  +:+ match reason d with Some r => r | None => "None" end.
Proof. unfold complaint_text_of, str_of_get. destruct (reason d); reflexivity. Qed.

(** C5.  After two RED analyses in a row for one user the stored complaint
    is the text made of the content and the reason of the second one:
    [Content: ], the content, an empty line, [AI Analysis: ] and the reason.
    The store is what the second analysis alone would have left, so nothing
    of the first complaint remains, and the file holds that store. *)
Theorem C5_second_red_complaint_overwrites E1 E2 m1 m2 c1 c2 i1 i2 t1 t2 d1 d2 w :
  user_id_str m1 = user_id_str m2 ->
  telegram_api E1 (thinking_call m1) = Ok t1 ->
  analysis_result E1 c1 i1 = JDict d1 ->
  get_result_color (JDict d1) = Ok "RED" ->
  telegram_api E2 (thinking_call m2) = Ok t2 ->
  analysis_result E2 c2 i2 = JDict d2 ->
  get_result_color (JDict d2) = Ok "RED" ->
  let uid := user_id_str m1 in
  let w1 := snd (run_analysis E1 m1 c1 i1 w) in
  let w2 := snd (run_analysis E2 m2 c2 i2 w1) in
  let first :=
    "Content: " +:+ c1 +:+ nl +:+ nl +:+ "AI Analysis: "
    +:+ match reason d1 with Some r => r | None => "None" end in
  let second :=
    "Content: " +:+ c2 +:+ nl +:+ nl +:+ "AI Analysis: "
    +:+ match reason d2 with Some r => r | None => "None" end in
  stored_complaint uid (bot_user_data w1) = Some first /\
  stored_complaint uid (bot_user_data w2) = Some second /\
  bot_user_data w2 = set_last_complaint uid second (bot_user_data w) /\
  user_data_json w2 = JsonStore (bot_user_data w2).
Proof.
  intros Hu Ht1 Ha1 Hc1 Ht2 Ha2 Hc2 uid w1 w2 first second.
  pose proof (run_analysis_store E1 m1 c1 i1 w) as S1.
  rewrite (captured_complaint_red _ _ _ _ _ _ Ht1 Ha1 Hc1) in S1.
  pose proof (run_analysis_store E2 m2 c2 i2 w1) as S2.
  rewrite (captured_complaint_red _ _ _ _ _ _ Ht2 Ha2 Hc2) in S2.
  rewrite complaint_text_of_spelled in S1, S2.
  simpl in S1, S2. fold w1 in S1. fold w2 in S2. rewrite <- Hu in S2.
  fold uid first in S1. fold uid second in S2.
  destruct S1 as [S1 _]. destruct S2 as [S2 S2'].
  assert (Hw2 : bot_user_data w2 = set_last_complaint uid second (bot_user_data w)).
  { rewrite S2, S1. apply set_last_complaint_twice. }
  repeat split.
  - rewrite S1, stored_complaint_set_last_complaint. rewrite decide_True; reflexivity.
  - rewrite Hw2, stored_complaint_set_last_complaint. rewrite decide_True; reflexivity.
  - exact Hw2.
  - exact S2'.
Qed.

Lemma C5_witness_two_scams :
  stored_complaint "42"
    (bot_user_data
       (snd (run_analysis (answering (JDict scam_link)) (message_of_42 "/search b") "b" None
          (snd (run_analysis (answering (JDict scam)) (message_of_42 "/search a") "a" None
                  fresh_world))))) =
  Some ("Content: b" +:+ nl +:+ nl
        +:+ "AI Analysis: The domain free_iphone.example is a known scam.").
Proof.
  destruct (C5_second_red_complaint_overwrites
              (answering (JDict scam)) (answering (JDict scam_link))
              (message_of_42 "/search a") (message_of_42 "/search b")
              "a" "b" None None 1%Z 1%Z scam scam_link fresh_world)
    as (_ & H & _); [reflexivity ..|].
  etransitivity; [exact H|reflexivity].
Defined.

(* ================================================================== *)
(** * What changes the store *)
(* ================================================================== *)

Lemma complaint_kept_run (l : list (env * event)) (w : world) : complaint_kept w (run w l).
Proof.
  apply preserves_run; unfold complaint_kept; simpl; auto.
  - intros w0 key c u H. rewrite stored_complaint_set_last_complaint.
    destruct (decide (key = u)); [eauto|exact H].
  - intros w0 key u H. rewrite stored_complaint_ensure. exact H.
  - intros w0 key h _ u H. rewrite stored_complaint_set_history. exact H.
Qed.

Lemma same_complaints_outside_analysis E ev w :
  (forall m, ev <> CmdSearch m) -> (forall m, ev <> Photo m) ->
  same_complaints w (step w (E, ev)).
Proof.
  intros Hs Hp. unfold step. simpl.
  destruct ev as [m|m|m|m|m]; simpl;
    try (exfalso; eapply Hs; reflexivity); try (exfalso; eapply Hp; reflexivity).
  - apply (preserves_send_welcome same_complaints); unfold same_complaints; simpl;
      auto; intros; congruence.
  - apply (preserves_complaint_cmd same_complaints); unfold same_complaints; simpl;
      auto; intros; congruence.
  - apply (preserves_handle_chat same_complaints); unfold same_complaints; simpl;
      auto; try (intros; congruence).
    + intros w0 key u. apply stored_complaint_ensure.
    + intros w0 key h _ u. apply stored_complaint_set_history.
Qed.

(** Formatting raises only on a JSON value that is not an object. *)
Lemma format_raises_not_dict j e :
  format_analysis_reply j = Raise e ->
  j = JNotDict /\ e = Exn AttributeError "object has no attribute 'get'".
Proof.
  destruct j as [d|]; intros H.
  - destruct (format_analysis_reply_ok d) as [s Hs]. congruence.
  - split; [reflexivity|]. unfold format_analysis_reply in H. simpl in H. congruence.
Qed.

Lemma run_analysis_failed_log E msg content img w tid e :
  telegram_api E (thinking_call msg) = Ok tid ->
  format_analysis_reply (analysis_result E content img) = Raise e ->
  last (bot_logs (snd (run_analysis E msg content img w))) =
    Some (LogLine (LogUser (from_user msg)) "ERROR" ("Analysis loop crash: " +:+ repr e)).
Proof.
  intros Ht Hf. apply format_raises_not_dict in Hf as [Hj ->].
  unfold run_analysis. fold (thinking_call msg).
  unfold bot_call, bind, try_except, lift. rewrite Ht.
  pose proof (structured_analysis_spec E content img
                (add_delivered (thinking_call msg) w)) as (Hv & _).
  destruct (call_gemini_for_structured_analysis E content img _) as [r w1].
  simpl in Hv. subst r. rewrite Hj. run_m. clear Ht.
  destruct (telegram_api E _); simpl; apply last_snoc.
Qed.

(** C7, as stated, fails for an analysis that is classified RED and whose
    reply Telegram then rejects: the handler of [run_analysis] runs (the
    failure is logged, the user is told of an error), and the complaint and
    the file were already written. *)
Lemma C7_counterexample_red_then_rejected_edit :
  get_result_color (JDict scam_link) = Ok "RED" /\
  last (bot_logs after_rejected_reply) =
    Some (LogLine (LogUser (User 42 "asha")) "ERROR"
            "Analysis loop crash: ApiTelegramException('can't parse entities')") /\
  last (delivered after_rejected_reply) =
    Some (EditMessageText (Glyph.CROSS_MARK +:+ " Error during analysis.") 1000 1 None) /\
  stored_complaint "42" (bot_user_data fresh_world) = None /\
  stored_complaint "42" (bot_user_data after_rejected_reply) =
    Some (complaint_text_of "Win a free iPhone now" scam_link) /\
  user_data_json fresh_world = NoFile /\
  user_data_json after_rejected_reply = JsonStore (bot_user_data after_rejected_reply) /\
  ~ same_store fresh_world after_rejected_reply.
Proof.
  repeat split; try reflexivity.
  intros [_ H]. vm_compute in H. discriminate H.
Qed.

(** C7, amended.  An analysis changes the dictionary and the file only when
    its result is classified RED: when it is not (GREEN, YELLOW, or a result
    that cannot be classified, which ends in the failure handler) both stay
    as they are, and so does every user's complaint.  A RED analysis stores
    its complaint as soon as it is classified, whatever happens to the reply
    afterwards.  No sequence of updates takes a complaint away from a user
    who has one, and the handlers other than the two analysis handlers leave
    every complaint as it is. *)
Theorem C7_store_changes_only_on_red E msg content img w :
  let w' := snd (run_analysis E msg content img w) in
  (get_result_color (analysis_result E content img) <> Ok "RED" ->
     same_store w w' /\ same_complaints w w') /\
  (forall e tid,
     telegram_api E (thinking_call msg) = Ok tid ->
     format_analysis_reply (analysis_result E content img) = Raise e ->
     same_store w w' /\
     last (bot_logs w') =
       Some (LogLine (LogUser (from_user msg)) "ERROR"
                     ("Analysis loop crash: " +:+ repr e))) /\
  (forall tid d,
     telegram_api E (thinking_call msg) = Ok tid ->
     analysis_result E content img = JDict d ->
     get_result_color (JDict d) = Ok "RED" ->
     stored_complaint (user_id_str msg) (bot_user_data w') =
       Some (complaint_text_of content d) /\
     user_data_json w' = JsonStore (bot_user_data w')) /\
  (forall l, complaint_kept w (run w l)) /\
  (forall E' ev,
     (forall m, ev <> CmdSearch m) -> (forall m, ev <> Photo m) ->
     same_complaints w (step w (E', ev))).
Proof.
  intros w'.
  assert (Hnr : get_result_color (analysis_result E content img) <> Ok "RED" ->
                same_store w w').
  { intros H. pose proof (run_analysis_store E msg content img w) as S.
    rewrite (captured_complaint_not_red _ _ _ _ H) in S. exact S. }
  split; [|split; [|split; [|split]]].
  - intros H. split; [apply Hnr, H|].
    intros u. destruct (Hnr H) as [-> _]. reflexivity.
  - intros e tid Ht Hf. split.
    + apply Hnr. apply format_raises_not_dict in Hf as [-> _]. discriminate.
    + eapply run_analysis_failed_log; eassumption.
  - intros tid d Ht Ha Hc.
    pose proof (run_analysis_store E msg content img w) as S.
    rewrite (captured_complaint_red _ _ _ _ _ _ Ht Ha Hc) in S.
    simpl in S. fold w' in S. destruct S as [S1 S2]. split; [|exact S2].
    rewrite S1, stored_complaint_set_last_complaint. rewrite decide_True; reflexivity.
  - intros l. apply complaint_kept_run.
  - intros E' ev. apply same_complaints_outside_analysis.
Qed.

Lemma C7_witness_yellow_analysis :
  get_result_color (analysis_result offline "Win a free iPhone now" None) <> Ok "RED" /\
  same_store fresh_world
    (snd (run_analysis offline (message_of_42 "/search Win a free iPhone now")
                       "Win a free iPhone now" None fresh_world)).
Proof.
  split; [discriminate|].
  destruct (C7_store_changes_only_on_red
              offline (message_of_42 "/search Win a free iPhone now")
              "Win a free iPhone now" None fresh_world) as (H & _).
  apply H. discriminate.
Defined.

(* ================================================================== *)
(** * Chat history *)
(* ================================================================== *)

Lemma last_items_short {A} (k : nat) (l : list A) :
  length l <= k -> last_items k l = l.
Proof.
  intros H. unfold last_items. destruct k; [reflexivity|].
  replace (length l - S k) with 0 by lia. reflexivity.
Qed.

(** Cutting to the last [k] items before appending changes nothing of the
    last [k] items after it. *)
Lemma last_items_app_last_items {A} (k : nat) (a b : list A) :
  last_items k (last_items k a ++ b) = last_items k (a ++ b).
Proof.
  unfold last_items. destruct k as [|k]; [reflexivity|].
  destruct (Nat.le_gt_cases (length a) (S k)) as [H|H].
  - replace (length a - S k) with 0 by lia. reflexivity.
  - rewrite !skipn_app, !length_app, !length_skipn, skipn_skipn.
    f_equal; f_equal; lia.
Qed.

(** The history of every user after a chat message. *)
Lemma handle_chat_histories E msg w u :
  let uid := user_id_str msg in
  let hist := stored_history uid (bot_user_data w) in
  let response := chat_response E (text msg) hist in
  stored_history u (bot_user_data (snd (handle_chat E msg w))) =
  if decide (uid = u)
  then if contains Glyph.WARNING_SIGN response then hist
       else last_items CHAT_HISTORY_LIMIT (hist ++ turn_pair (text msg) response)
  else stored_history u (bot_user_data w).
Proof.
  intros uid hist response.
  pose proof (handle_chat_store E msg w) as [_ H]. simpl in H.
  fold uid hist response in H.
  destruct (contains Glyph.WARNING_SIGN response).
  - destruct H as [-> _]. rewrite stored_history_ensure.
    destruct (decide (uid = u)) as [<-|]; reflexivity.
  - destruct H as [-> _]. rewrite stored_history_set_history.
    destruct (decide (uid = u)) as [<-|].
    + destruct (ensure_record_lookup uid (bot_user_data w)) as [r ->]. reflexivity.
    + apply stored_history_ensure.
Qed.

Lemma same_histories_outside_chat E ev w :
  (forall m, ev <> Chat m) -> same_histories w (step w (E, ev)).
Proof.
  intros Hc. unfold step. simpl.
  assert (Hrefl : forall w0, same_histories w0 w0) by (intros ? ?; reflexivity).
  assert (Htrans : forall w1 w2 w3, same_histories w1 w2 -> same_histories w2 w3 ->
                                    same_histories w1 w3).
  { intros w1 w2 w3 H1 H2 u. rewrite H2. apply H1. }
  assert (Hcomp : forall w0 key c,
            same_histories w0
              (set_bot_user_data (set_last_complaint key c (bot_user_data w0)) w0)).
  { intros w0 key c u. apply stored_history_set_last_complaint. }
  destruct ev as [m|m|m|m|m]; simpl; try (exfalso; eapply Hc; reflexivity).
  - apply (preserves_send_welcome same_histories); auto; intros; intros u; reflexivity.
  - apply (preserves_search_command same_histories); auto; intros; intros u; reflexivity.
  - apply (preserves_complaint_cmd same_histories); auto; intros; intros u; reflexivity.
  - apply (preserves_handle_photo same_histories); auto; intros; intros u; reflexivity.
Qed.

(** One update, seen from the history of [uid]. *)
Lemma step_history uid w x :
  length (stored_history uid (bot_user_data w)) <= CHAT_HISTORY_LIMIT ->
  stored_history uid (bot_user_data (step w x)) =
  last_items CHAT_HISTORY_LIMIT (stored_history uid (bot_user_data w) ++ new_turns uid w x).
Proof.
  intros Hlen. destruct x as [E ev].
  destruct ev as [m|m|m|m|m];
    try (unfold new_turns; simpl snd; rewrite app_nil_r, last_items_short by exact Hlen;
         apply same_histories_outside_chat; intros m' Hm'; discriminate Hm').
  unfold step, new_turns. cbn [fst snd handler].
  rewrite handle_chat_histories.
  destruct (String.eqb_spec (user_id_str m) uid) as [Heq|Hne].
  - rewrite decide_True by exact Heq. rewrite Heq.
    destruct (contains Glyph.WARNING_SIGN _).
    + rewrite app_nil_r, last_items_short by exact Hlen. reflexivity.
    + reflexivity.
  - rewrite decide_False by exact Hne.
    rewrite app_nil_r, last_items_short by exact Hlen. reflexivity.
Qed.

(** C4.  The limit is 6.  From a world in which a user's history has at
    most 6 entries (a new user has none), after any sequence of updates of
    any users that history has at most 6 entries, and they are the last 6 of
    the old entries followed, oldest first, by the pairs of that user's
    exchanges that succeeded.  A successful chat message leaves at most 6
    entries whatever was stored before: the old entries, then the new pair,
    cut to the last 6. *)
Theorem C4_history_bounded_and_recent (l : list (env * event)) (w : world) (uid : string) :
  length (stored_history uid (bot_user_data w)) <= CHAT_HISTORY_LIMIT ->
  CHAT_HISTORY_LIMIT = 6 /\
  length (stored_history uid (bot_user_data (run w l))) <= CHAT_HISTORY_LIMIT /\
  stored_history uid (bot_user_data (run w l)) =
    last_items CHAT_HISTORY_LIMIT
      (stored_history uid (bot_user_data w) ++ exchanges uid w l) /\
  (forall E msg,
     contains Glyph.WARNING_SIGN
       (chat_response E (text msg) (stored_history (user_id_str msg) (bot_user_data w)))
       = false ->
     let w' := snd (handle_chat E msg w) in
     stored_history (user_id_str msg) (bot_user_data w') =
       last_items CHAT_HISTORY_LIMIT
         (stored_history (user_id_str msg) (bot_user_data w)
          ++ turn_pair (text msg)
               (chat_response E (text msg)
                  (stored_history (user_id_str msg) (bot_user_data w)))) /\
     length (stored_history (user_id_str msg) (bot_user_data w')) <= CHAT_HISTORY_LIMIT).
Proof.
  intros Hlen. split; [reflexivity|].
  assert (Hmain : stored_history uid (bot_user_data (run w l)) =
    last_items CHAT_HISTORY_LIMIT
      (stored_history uid (bot_user_data w) ++ exchanges uid w l)).
  { revert w Hlen. induction l as [|x l IH]; intros w Hlen.
    - change (run w []) with w. change (exchanges uid w []) with (@nil turn).
      rewrite app_nil_r, last_items_short by exact Hlen. reflexivity.
    - change (run w (x :: l)) with (run (step w x) l).
      change (exchanges uid w (x :: l))
        with (new_turns uid w x ++ exchanges uid (step w x) l)%list.
      rewrite IH.
      + rewrite step_history by exact Hlen.
        rewrite last_items_app_last_items, app_assoc. reflexivity.
      + rewrite step_history by exact Hlen. apply last_items_length. discriminate. }
  split; [|split; [exact Hmain|]].
  - rewrite Hmain. apply last_items_length. discriminate.
  - intros E msg Hok w'. subst w'. rewrite handle_chat_histories.
    rewrite decide_True by reflexivity. rewrite Hok.
    split; [reflexivity|]. apply last_items_length. discriminate.
Qed.

Lemma C4_witness_four_exchanges :
  length (stored_history "42" (bot_user_data fresh_world)) <= CHAT_HISTORY_LIMIT /\
  stored_history "42" (bot_user_data (run fresh_world four_chats)) =
    [Turn "user" ["b"]; Turn "model" ["Hello!"];
     Turn "user" ["c"]; Turn "model" ["Hello!"];
     Turn "user" ["d"]; Turn "model" ["Hello!"]].
Proof.
  split; [vm_compute; lia|].
  destruct (C4_history_bounded_and_recent four_chats fresh_world "42") as (_ & _ & H & _).
  - vm_compute. lia.
  - rewrite H. reflexivity.
Defined.

(** C9, as stated, fails for a user the store does not know: the record
    with an empty history is put into the dictionary before the model is
    called, so a failed exchange changes the dictionary. *)
Lemma C9_counterexample_new_user_failure :
  contains Glyph.WARNING_SIGN (chat_response offline "hello" []) = true /\
  bot_user_data fresh_world !! "42" = None /\
  bot_user_data (snd (handle_chat offline (message_of_42 "hello") fresh_world)) !! "42"
    = Some (UserRecord (Some []) None) /\
  bot_user_data (snd (handle_chat offline (message_of_42 "hello") fresh_world))
    <> bot_user_data fresh_world.
Proof.
  split; [reflexivity|]. split; [reflexivity|]. split; [reflexivity|].
  intros H. apply (f_equal (fun d : store => d !! "42")) in H.
  vm_compute in H. discriminate H.
Qed.

(** C9, amended.  The handler returns normally.  When the response does
    not contain the marker, the user's history becomes the old entries
    followed by the new pair, cut to the last 6, the other histories stay,
    and the file is rewritten with the dictionary.  When it contains the
    marker, every history and every complaint stay as they are and the file
    is not touched; the dictionary changes at most by the record with an
    empty history of a user it did not know, and not at all for a known
    user. *)
Theorem C9_chat_turn_kept_iff_no_marker E msg w :
  let uid := user_id_str msg in
  let hist := stored_history uid (bot_user_data w) in
  let response := chat_response E (text msg) hist in
  let w' := snd (handle_chat E msg w) in
  fst (handle_chat E msg w) = Ok tt /\
  (contains Glyph.WARNING_SIGN response = false ->
     stored_history uid (bot_user_data w') =
       last_items CHAT_HISTORY_LIMIT (hist ++ turn_pair (text msg) response) /\
     (forall u, u <> uid ->
        stored_history u (bot_user_data w') = stored_history u (bot_user_data w)) /\
     user_data_json w' = JsonStore (bot_user_data w')) /\
  (contains Glyph.WARNING_SIGN response = true ->
     same_histories w w' /\
     same_complaints w w' /\
     user_data_json w' = user_data_json w /\
     bot_user_data w' = ensure_record uid (bot_user_data w) /\
     (is_Some (bot_user_data w !! uid) -> bot_user_data w' = bot_user_data w)).
Proof.
  intros uid hist response w'.
  pose proof (handle_chat_store E msg w) as [Hr H]. simpl in H.
  fold uid hist response w' in H.
  split; [exact Hr|]. split; intros Hm; rewrite Hm in H; destruct H as [Hd Hf].
  - split; [|split; [|exact Hf]].
    + unfold w'. rewrite handle_chat_histories. fold uid hist response.
      rewrite decide_True by reflexivity. rewrite Hm. reflexivity.
    + intros u Hu. unfold w'. rewrite handle_chat_histories.
      rewrite decide_False by (intros Heq; apply Hu; symmetry; exact Heq). reflexivity.
  - split; [|split; [|split; [exact Hf|split; [exact Hd|]]]].
    + intros u. rewrite Hd. apply stored_history_ensure.
    + intros u. rewrite Hd. apply stored_complaint_ensure.
    + intros [r Hr']. rewrite Hd. unfold ensure_record. rewrite Hr'. reflexivity.
Qed.

Lemma C9_witness_failed_and_kept :
  contains Glyph.WARNING_SIGN (chat_response offline "hello" []) = true /\
  same_histories fresh_world
    (snd (handle_chat offline (message_of_42 "hello") fresh_world)) /\
  contains Glyph.WARNING_SIGN (chat_response (talking "Hello!") "hello" []) = false /\
  stored_history "42"
    (bot_user_data (snd (handle_chat (talking "Hello!") (message_of_42 "hello")
                                     fresh_world))) =
    [Turn "user" ["hello"]; Turn "model" ["Hello!"]].
Proof.
  split; [reflexivity|].
  destruct (C9_chat_turn_kept_iff_no_marker offline (message_of_42 "hello") fresh_world)
    as (_ & _ & Hfail).
  destruct (Hfail eq_refl) as (Hh & _).
  split; [exact Hh|]. split; [reflexivity|].
  destruct (C9_chat_turn_kept_iff_no_marker
              (talking "Hello!") (message_of_42 "hello") fresh_world)
    as (_ & Hok & _).
  destruct (Hok eq_refl) as (H & _).
  etransitivity; [exact H|reflexivity].
Defined.

(* ================================================================== *)
(** * The reply text for every dictionary *)
(* ================================================================== *)

Lemma Z_to_nat_sum_10 (f : Z) :
  Z.to_nat f + Z.to_nat (10 - f) = 10 <-> (0 <= f <= 10)%Z.
Proof. lia. Qed.

Lemma half_even_div10_in_range_iff (c : Z) :
  (0 <= half_even_div10 c <= 10)%Z <-> (-5 <= c <= 105)%Z.
Proof.
  unfold half_even_div10.
  pose proof (Z.div_mod c 10 ltac:(lia)) as Hd.
  pose proof (Z.mod_pos_bound c 10 ltac:(lia)) as Hm.
  destruct (Z.ltb_spec (c mod 10) 5); [lia|].
  destruct (Z.ltb_spec 5 (c mod 10)); [lia|].
  destruct (Z.even (c / 10)) eqn:He.
  - apply Z.even_spec in He. destruct He as [k Hk]. lia.
  - assert (Ho : Z.odd (c / 10) = true) by (rewrite <- Z.negb_even, He; reflexivity).
    apply Z.odd_spec in Ho. destruct Ho as [k Hk]. lia.
Qed.

(** X1.  The confidence bar is not clamped.  For every integer confidence
    up to a million in absolute value (where the model is the program: the
    division is exact enough and the bar can be built), the bar is
    [filled_cells c] filled cells followed by [10 - filled_cells c] empty
    cells, a count that is not positive giving no cell.  It has ten cells
    exactly for the confidences from -5 to 105; above 105 it is made of
    more than ten filled cells, below -5 of more than ten empty cells. *)
Theorem confidence_bar_any_integer (c : Z) :
  bar_modelled c ->
  confidence_bar c = render_cells (bar_cells c) /\
  (length (bar_cells c) = 10 <-> (-5 <= c <= 105)%Z) /\
  ((105 < c)%Z -> bar_cells c = repeat Filled (Z.to_nat (filled_cells c)) /\
                   10 < length (bar_cells c)) /\
  ((c < -5)%Z -> bar_cells c = repeat Empty (Z.to_nat (10 - filled_cells c)) /\
                  10 < length (bar_cells c)).
Proof.
  intros _.
  assert (Hlen : length (bar_cells c) =
                 Z.to_nat (filled_cells c) + Z.to_nat (10 - filled_cells c)).
  { unfold bar_cells. rewrite length_app, !repeat_length. reflexivity. }
  pose proof (half_even_div10_in_range_iff c) as Hr.
  rewrite <- filled_cells_half_even in Hr.
  split; [|split; [|split]].
  - unfold confidence_bar, bar_cells, mul.
    rewrite render_cells_app, !render_cells_repeat. reflexivity.
  - rewrite Hlen, Z_to_nat_sum_10. exact Hr.
  - intros Hc.
    assert (Hf : (10 < filled_cells c)%Z).
    { rewrite filled_cells_half_even. unfold half_even_div10.
      pose proof (Z.div_mod c 10 ltac:(lia)) as Hd.
      pose proof (Z.mod_pos_bound c 10 ltac:(lia)) as Hm.
      destruct (Z.ltb_spec (c mod 10) 5); [lia|].
      destruct (Z.ltb_spec 5 (c mod 10)); [lia|].
      destruct (Z.even (c / 10)) eqn:He; [|lia].
      apply Z.even_spec in He. destruct He as [k Hk]. lia. }
    split; [|rewrite Hlen; lia].
    unfold bar_cells. replace (Z.to_nat (10 - filled_cells c)) with 0 by lia.
    simpl. apply app_nil_r.
  - intros Hc.
    assert (Hf : (filled_cells c < 0)%Z).
    { rewrite filled_cells_half_even. unfold half_even_div10.
      pose proof (Z.div_mod c 10 ltac:(lia)) as Hd.
      pose proof (Z.mod_pos_bound c 10 ltac:(lia)) as Hm.
      destruct (Z.ltb_spec (c mod 10) 5); [lia|].
      destruct (Z.ltb_spec 5 (c mod 10)); [lia|].
      destruct (Z.even (c / 10)) eqn:He; [lia|].
      assert (Ho : Z.odd (c / 10) = true) by (rewrite <- Z.negb_even, He; reflexivity).
      apply Z.odd_spec in Ho. destruct Ho as [k Hk]. lia. }
    split; [|rewrite Hlen; lia].
    unfold bar_cells. replace (Z.to_nat (filled_cells c)) with 0 by lia. reflexivity.
Qed.

Lemma confidence_bar_any_integer_witness :
  bar_modelled 150 /\ (105 < 150)%Z /\ length (bar_cells 150) = 15 /\
  bar_modelled (-40) /\ (-40 < -5)%Z /\ length (bar_cells (-40)) = 14.
Proof.
  assert (B1 : bar_modelled 150) by (unfold bar_modelled; lia).
  assert (B2 : bar_modelled (-40)) by (unfold bar_modelled; lia).
  destruct (confidence_bar_any_integer 150 B1) as (_ & _ & H & _).
  destruct (confidence_bar_any_integer (-40) B2) as (_ & _ & _ & H').
  destruct (H ltac:(lia)) as [E1 _]. destruct (H' ltac:(lia)) as [E2 _].
  split; [exact B1|]. split; [lia|]. split; [rewrite E1; reflexivity|].
  split; [exact B2|]. split; [lia|]. rewrite E2. reflexivity.
Defined.

(** [x >= n] on the float is [n <= int(x)] on the integer shown, for a
    positive integer [n]. *)
Lemma ge_float_int (x : num) (n : Z) :
  (0 < n)%Z -> ge (float x) n = (n <=? int x)%Z.
Proof.
  intros Hn. destruct x as [z|[a b]]; [apply ge_int|].
  unfold ge, float, int, Qle_bool. cbn [Qnum Qden inject_Z].
  rewrite Z.mul_1_r.
  destruct (Z.le_gt_cases 0 a) as [Ha|Ha].
  - rewrite Z.quot_div_nonneg by lia.
    apply eq_true_iff_eq. rewrite !Z.leb_le. split; intros H.
    + apply Z.div_le_lower_bound; lia.
    + pose proof (Z.mul_div_le a (Z.pos b) ltac:(lia)). nia.
  - assert (Hq : (Z.quot a (Z.pos b) <= 0)%Z).
    { replace a with (- (- a))%Z by lia. rewrite Z.quot_opp_l by lia.
      pose proof (Z.quot_pos (- a) (Z.pos b) ltac:(lia) ltac:(lia)). lia. }
    apply eq_true_iff_eq. rewrite !Z.leb_le. split; intros H; [nia|lia].
Qed.

(** X2.  The colour follows from the percentage the reply shows.  The reply
    contains [(N%)], where [N] is the integer part of the confidence, and
    the colour is RED exactly when the result is FAKE and [N >= 65], GREEN
    exactly when the result is REAL and [N >= 60]; this holds for a
    confidence with a fraction too, and for missing keys with their
    defaults UNSURE and 0. *)
Theorem color_agrees_with_percentage (d : verdict) :
  let r := get (result d) "UNSURE" in
  let shown := int (get (confidence d) (PyInt 0)) in
  (exists before after,
     format_analysis_reply (JDict d) =
     Ok (before +:+ " (" +:+ str_of_int shown +:+ "%)" +:+ after)) /\
  (get_result_color (JDict d) = Ok "RED" <-> r = "FAKE" /\ (65 <= shown)%Z) /\
  (get_result_color (JDict d) = Ok "GREEN" <-> r = "REAL" /\ (60 <= shown)%Z).
Proof.
  intros r shown. split.
  - destruct (format_analysis_reply_bar d) as (b & a & H).
    exists (b +:+ "*Confidence:* " +:+ confidence_bar shown), a.
    rewrite H. fold shown. rewrite !app_str_assoc. reflexivity.
  - rewrite get_result_color_dict. fold r.
    unfold CONFIDENCE_THRESHOLD_FAKE, CONFIDENCE_THRESHOLD_REAL.
    rewrite !ge_float_int by lia. fold shown.
    destruct (String.eqb_spec r "FAKE") as [Hf|Hf];
      destruct (String.eqb_spec r "REAL") as [Hr|Hr];
      destruct (Z.leb_spec 65 shown); destruct (Z.leb_spec 60 shown); simpl;
      try (exfalso; congruence); try lia;
      split; split; intros; try discriminate; try tauto; try lia;
      try (destruct H1; congruence); try (destruct H1; lia);
      try (destruct H2; congruence); try (destruct H2; lia).
Qed.

(** X3.  A dictionary that lacks keys is formatted and classified as the
    dictionary in which every missing key has its default (UNSURE, 0, N/A,
    N/A, N/A, no red flags).  The complaint text is built otherwise:
    without the key [reason] it ends in [AI Analysis: None], where the
    reply shows [N/A]. *)
Theorem missing_keys_format_as_defaults (d : verdict) :
  format_analysis_reply (JDict d) = format_analysis_reply (JDict (with_defaults d)) /\
  get_result_color (JDict d) = get_result_color (JDict (with_defaults d)) /\
  (reason d = None ->
     forall content,
       complaint_text_of content d =
         "Content: " +:+ content +:+ nl +:+ nl +:+ "AI Analysis: None" /\
       complaint_text_of content (with_defaults d) =
         "Content: " +:+ content +:+ nl +:+ nl +:+ "AI Analysis: N/A").
Proof.
  split; [|split].
  - destruct d as [[r|] [c|] [re|] [en|] [hi|] [fl|]]; reflexivity.
  - destruct d as [[r|] [c|] [re|] [en|] [hi|] [fl|]]; reflexivity.
  - intros H content. unfold complaint_text_of, with_defaults. simpl. rewrite H.
    split; reflexivity.
Qed.

Lemma missing_keys_format_as_defaults_witness :
  reason (Verdict (Some "FAKE") (Some (PyInt 80)) None None None None) = None /\
  complaint_text_of "x" (Verdict (Some "FAKE") (Some (PyInt 80)) None None None None) =
    "Content: x" +:+ nl +:+ nl +:+ "AI Analysis: None".
Proof.
  split; [reflexivity|].
  destruct (missing_keys_format_as_defaults
              (Verdict (Some "FAKE") (Some (PyInt 80)) None None None None))
    as (_ & _ & H).
  destruct (H eq_refl "x") as [H1 _]. exact H1.
Defined.

(** X4.  Red flags only add a last section to the reply: the reply for a
    dictionary is the reply for the same dictionary without [red_flags],
    followed, when the list of flags is not empty, by the section with one
    bullet line per flag; an empty list adds nothing. *)
Theorem red_flags_are_appended (d : verdict) :
  exists base,
    format_analysis_reply (JDict (without_flags d)) = Ok base /\
    format_analysis_reply (JDict d) =
      Ok (match red_flags d with
          | Some (flag :: flags) => base +:+ red_flags_section (flag :: flags)
          | _ => base
          end).
Proof.
  destruct (format_analysis_reply_ok (without_flags d)) as [base Hb].
  exists base. split; [exact Hb|].
  revert Hb. unfold format_analysis_reply.
  rewrite !get_result_color_dict. cbn [attr_get without_flags result confidence reason
                                      why_card_en why_card_hi red_flags].
  intros Hb. injection Hb as <-.
  destruct (red_flags d) as [[|flag flags]|]; reflexivity.
Qed.

(* ================================================================== *)
(** * Replies and the commands that only read *)
(* ================================================================== *)

Lemma send_safe_reply_cases E msg body pm w :
  send_safe_reply E msg body pm w =
  (Ok tt,
   match telegram_api E (ReplyTo msg body pm) with
   | Ok _ => add_delivered (ReplyTo msg body pm) w
   | Raise e => add_log (LogLine (LogUser (from_user msg)) "SEND_FAIL"
                                 ("Failed to send: " +:+ exn_message e)) w
   end).
Proof.
  unfold send_safe_reply, bot_call. run_m.
  destruct (telegram_api E _); reflexivity.
Qed.

(** X5.  [send_safe_reply] never raises and touches neither the store nor
    the model.  When Telegram accepts the reply, it is delivered and
    nothing is logged; when Telegram rejects it, nothing is delivered and
    one SEND_FAIL line with the message of the exception is logged. *)
Theorem send_safe_reply_absorbs E msg body pm w :
  let r := send_safe_reply E msg body pm w in
  fst r = Ok tt /\
  same_store w (snd r) /\
  requested (snd r) = requested w /\
  (forall i, telegram_api E (ReplyTo msg body pm) = Ok i ->
     delivered (snd r) = (delivered w ++ [ReplyTo msg body pm])%list /\
     bot_logs (snd r) = bot_logs w) /\
  (forall e, telegram_api E (ReplyTo msg body pm) = Raise e ->
     delivered (snd r) = delivered w /\
     bot_logs (snd r) =
       (bot_logs w ++ [LogLine (LogUser (from_user msg)) "SEND_FAIL"
                               ("Failed to send: " +:+ exn_message e)])%list).
Proof.
  intros r. subst r. rewrite send_safe_reply_cases. unfold same_store.
  destruct (telegram_api E _) as [i|e]; simpl; repeat split; intros; congruence.
Qed.

Lemma send_safe_reply_absorbs_witness :
  telegram_api muted (ReplyTo (message_of_42 "hi") "Hello!" None) =
    Raise (Exn ApiTelegramException "Too Many Requests") /\
  fst (send_safe_reply muted (message_of_42 "hi") "Hello!" None fresh_world) = Ok tt /\
  delivered (snd (send_safe_reply muted (message_of_42 "hi") "Hello!" None fresh_world)) = [].
Proof.
  split; [reflexivity|].
  destruct (send_safe_reply_absorbs muted (message_of_42 "hi") "Hello!" None fresh_world)
    as (H1 & _ & _ & _ & H2).
  split; [exact H1|]. destruct (H2 _ eq_refl) as [H _]. exact H.
Defined.

Lemma complaint_cmd_cases E msg w :
  complaint_cmd E msg w =
  (Ok tt,
   add_log (LogLine (LogUser (from_user msg)) "COMMAND_COMPLAINT" "")
     (snd (match stored_complaint (user_id_str msg) (bot_user_data w) with
           | Some c =>
               if truthy_str c
               then send_safe_reply E msg (complaint_reply c) (Some "Markdown") w
               else send_safe_reply E msg NO_COMPLAINT_REPLY None w
           | None => send_safe_reply E msg NO_COMPLAINT_REPLY None w
           end))).
Proof.
  unfold complaint_cmd, bind, gets, log_event, modify.
  fold NO_COMPLAINT_REPLY.
  destruct (stored_complaint _ _) as [c|]; [destruct (truthy_str c)|];
    try fold (complaint_reply c); rewrite send_safe_reply_cases; reflexivity.
Qed.

Lemma send_welcome_cases E msg w :
  send_welcome E msg w =
  (Ok tt,
   add_log (LogLine (LogUser (from_user msg)) "COMMAND_START" "")
     (snd (send_safe_reply E msg welcome_text (Some "Markdown") w))).
Proof.
  unfold send_welcome, bind, log_event, modify.
  rewrite send_safe_reply_cases. reflexivity.
Qed.

(** X6.  After an analysis classified RED whose first message was
    delivered, [/complaint] of the same user replies, in Markdown, with the
    complaint: the heading [Complaint Text:], then between back quotes
    [Content: ], the analysed content, an empty line, [AI Analysis: ] and
    the reason ([None] for a dictionary without the key), then the line
    that asks to copy it.  It logs COMMAND_COMPLAINT; nothing else
    changes. *)
Theorem complaint_after_red_analysis E E' msg msg' content img w tid d i :
  let body :=
    Glyph.MEMO +:+ " **Complaint Text:**" +:+ nl +:+ nl
    +:+ "`" +:+ ("Content: " +:+ content +:+ nl +:+ nl +:+ "AI Analysis: "
                 +:+ match reason d with Some r => r | None => "None" end)
    +:+ "`" +:+ nl +:+ nl +:+ "_Copy this to report._" in
  telegram_api E (thinking_call msg) = Ok tid ->
  analysis_result E content img = JDict d ->
  get_result_color (JDict d) = Ok "RED" ->
  user_id_str msg' = user_id_str msg ->
  telegram_api E' (ReplyTo msg' body (Some "Markdown")) = Ok i ->
  let w1 := snd (run_analysis E msg content img w) in
  complaint_cmd E' msg' w1 =
  (Ok tt,
   add_log (LogLine (LogUser (from_user msg')) "COMMAND_COMPLAINT" "")
     (add_delivered (ReplyTo msg' body (Some "Markdown")) w1)).
Proof.
  intros body Ht Ha Hc Hu Hi w1.
  assert (Hbody : complaint_reply (complaint_text_of content d) = body).
  { rewrite complaint_text_of_spelled. reflexivity. }
  pose proof (run_analysis_store E msg content img w) as S.
  rewrite (captured_complaint_red _ _ _ _ _ _ Ht Ha Hc) in S.
  simpl in S. fold w1 in S. destruct S as [S _].
  rewrite complaint_cmd_cases, Hu, S, stored_complaint_set_last_complaint.
  rewrite decide_True by reflexivity.
  change (truthy_str (complaint_text_of content d)) with true. cbv iota.
  rewrite send_safe_reply_cases, Hbody, Hi. reflexivity.
Qed.

Lemma complaint_after_red_analysis_witness :
  last (delivered
          (snd (complaint_cmd (answering (JDict scam)) (message_of_42 "/complaint")
                  (snd (run_analysis (answering (JDict scam))
                          (message_of_42 "/search Win a free iPhone now")
                          "Win a free iPhone now" None fresh_world))))) =
  Some (ReplyTo (message_of_42 "/complaint")
          (Glyph.MEMO +:+ " **Complaint Text:**" +:+ nl +:+ nl
           +:+ "`Content: Win a free iPhone now" +:+ nl +:+ nl
           +:+ "AI Analysis: Classic prize scam.`" +:+ nl +:+ nl
           +:+ "_Copy this to report._")
          (Some "Markdown")).
Proof.
  rewrite (complaint_after_red_analysis
             (answering (JDict scam)) (answering (JDict scam))
             (message_of_42 "/search Win a free iPhone now") (message_of_42 "/complaint")
             "Win a free iPhone now" None fresh_world 1%Z scam 1%Z);
    reflexivity.
Defined.

(** X7.  For a user without a stored complaint, or with an empty one,
    [/complaint] sends the fixed text that asks to run [/search] first,
    without parse mode, and logs COMMAND_COMPLAINT. *)
Theorem complaint_without_red_flag E msg w :
  stored_complaint (user_id_str msg) (bot_user_data w) = None \/
  stored_complaint (user_id_str msg) (bot_user_data w) = Some "" ->
  complaint_cmd E msg w =
  (Ok tt,
   add_log (LogLine (LogUser (from_user msg)) "COMMAND_COMPLAINT" "")
     (snd (send_safe_reply E msg NO_COMPLAINT_REPLY None w))).
Proof.
  intros [H|H]; rewrite complaint_cmd_cases, H; reflexivity.
Qed.

Lemma complaint_without_red_flag_witness :
  stored_complaint "42" (bot_user_data fresh_world) = None /\
  delivered (snd (complaint_cmd offline (message_of_42 "/complaint") fresh_world)) =
    [ReplyTo (message_of_42 "/complaint") NO_COMPLAINT_REPLY None].
Proof.
  split; [reflexivity|].
  rewrite (complaint_without_red_flag offline (message_of_42 "/complaint") fresh_world).
  - reflexivity.
  - left. reflexivity.
Defined.

(** X8.  [/start] and [/complaint] never raise, whatever Telegram does;
    they leave the dictionary and the file as they are, send no request to
    the model and deliver at most one message. *)
Theorem welcome_and_complaint_are_read_only E msg w :
  fst (send_welcome E msg w) = Ok tt /\
  fst (complaint_cmd E msg w) = Ok tt /\
  same_store w (snd (send_welcome E msg w)) /\
  same_store w (snd (complaint_cmd E msg w)) /\
  requested (snd (send_welcome E msg w)) = requested w /\
  requested (snd (complaint_cmd E msg w)) = requested w /\
  length (delivered (snd (send_welcome E msg w))) <= S (length (delivered w)) /\
  length (delivered (snd (complaint_cmd E msg w))) <= S (length (delivered w)).
Proof.
  rewrite send_welcome_cases, complaint_cmd_cases. unfold same_store.
  destruct (stored_complaint _ _) as [c|]; [destruct (truthy_str c)|];
    rewrite !send_safe_reply_cases;
    repeat match goal with
           | |- context [telegram_api E ?c] => destruct (telegram_api E c)
           end; simpl; rewrite ?length_app; simpl; repeat split; lia.
Qed.

(* ================================================================== *)
(** * The messages and the exceptions of an analysis *)
(* ================================================================== *)

(** Split [telegram_api E c] wherever the goal inspects it. *)
Ltac split_telegram E :=
  repeat match goal with
         | |- context [telegram_api E ?c] => destruct (telegram_api E c)
         end.

(** X9.  [run_analysis] delivers at most two Telegram messages.  When it
    returns, they are exactly the "Analyzing content..." reply followed by
    one edit of that message, in the chat of the user's message and with
    the id Telegram gave to the reply. *)
Theorem run_analysis_two_messages E msg content img w :
  let r := run_analysis E msg content img w in
  (exists sent, delivered (snd r) = (delivered w ++ sent)%list /\ length sent <= 2) /\
  (fst r = Ok tt ->
   exists tid body pm,
     telegram_api E (thinking_call msg) = Ok tid /\
     delivered (snd r) =
       (delivered w ++ [thinking_call msg; EditMessageText body (chat_id msg) tid pm])%list).
Proof.
  intros r. subst r.
  unfold run_analysis; fold (thinking_call msg).
  unfold bot_call, bind, try_except, lift.
  destruct (telegram_api E (thinking_call msg)) as [tid|e].
  2:{ simpl. split; [exists []; split; [symmetry; apply app_nil_r|simpl; lia]|discriminate]. }
  pose proof (structured_analysis_spec E content img
                (add_delivered (thinking_call msg) w)) as (Hv & Hs & Hd & Hr).
  destruct (call_gemini_for_structured_analysis E content img _) as [r w1].
  simpl in Hv, Hs, Hd, Hr. subst r.
  assert (Hleaf : forall (o : outcome unit) (extra : list api_call),
            length extra <= 1 ->
            (o = Ok tt -> exists body pm, extra = [EditMessageText body (chat_id msg) tid pm]) ->
            (exists sent, (delivered w1 ++ extra)%list = (delivered w ++ sent)%list /\
                          length sent <= 2) /\
            (o = Ok tt ->
             exists tid0 body pm,
               Ok tid = Ok tid0 /\
               (delivered w1 ++ extra)%list =
               (delivered w ++ [thinking_call msg;
                                EditMessageText body (chat_id msg) tid0 pm])%list)).
  { intros o extra Hlen Hok. rewrite Hd, <- app_assoc. split.
    - eexists. split; [reflexivity|]. rewrite length_app. simpl. lia.
    - intros Ho. destruct (Hok Ho) as (body & pm & ->). eauto. }
  destruct (analysis_result E content img) as [d|].
  - destruct (format_analysis_reply_ok d) as [s Hfmt]. rewrite Hfmt.
    rewrite get_result_color_dict.
    set (col := if _ : bool then "RED" else _).
    destruct (String.eqb col "RED"); run_m; split_telegram E; simpl;
      first [ apply (Hleaf _ [_]); [simpl; lia | eauto]
            | rewrite <- (app_nil_r (delivered w1)); apply (Hleaf _ []);
              [simpl; lia | discriminate] ].
  - run_m. split_telegram E; simpl;
      first [ apply (Hleaf _ [_]); [simpl; lia | eauto]
            | rewrite <- (app_nil_r (delivered w1)); apply (Hleaf _ []);
              [simpl; lia | discriminate] ].
Qed.

Lemma run_analysis_two_messages_witness :
  fst (run_analysis (answering (JDict scam)) (message_of_42 "/search x") "x" None
                    fresh_world) = Ok tt /\
  length (delivered (snd (run_analysis (answering (JDict scam)) (message_of_42 "/search x")
                                       "x" None fresh_world))) = 2.
Proof.
  assert (H0 : fst (run_analysis (answering (JDict scam)) (message_of_42 "/search x") "x"
                                 None fresh_world) = Ok tt) by reflexivity.
  split; [exact H0|].
  destruct (run_analysis_two_messages (answering (JDict scam)) (message_of_42 "/search x")
              "x" None fresh_world) as [_ H].
  destruct (H H0) as (tid & body & pm & _ & Hd). rewrite Hd. reflexivity.
Defined.

Ltac split_telegram_eqn E :=
  repeat match goal with
         | |- context [telegram_api E ?c] => destruct (telegram_api E c) eqn:?
         end.

Lemma run_analysis_raise_cases E msg content img w e :
  fst (run_analysis E msg content img w) = Raise e ->
  telegram_api E (thinking_call msg) = Raise e \/
  exists tid, telegram_api E (thinking_call msg) = Ok tid /\
              telegram_api E (error_edit msg tid) = Raise e.
Proof.
  unfold run_analysis, error_edit; fold (thinking_call msg).
  unfold bot_call, bind, try_except, lift.
  destruct (telegram_api E (thinking_call msg)) as [tid|e0] eqn:Hthink.
  2:{ simpl. intros H. left. congruence. }
  destruct (call_gemini_for_structured_analysis E content img _) as [r w1] eqn:Hcall.
  pose proof (structured_analysis_spec E content img
                (add_delivered (thinking_call msg) w)) as (Hv & _).
  rewrite Hcall in Hv. simpl in Hv. subst r. clear Hcall.
  intros H. right. exists tid. split; [reflexivity|]. revert H.
  destruct (analysis_result E content img) as [d|].
  - destruct (format_analysis_reply_ok d) as [s Hfmt]. rewrite Hfmt.
    rewrite get_result_color_dict.
    set (col := if _ : bool then "RED" else _).
    destruct (String.eqb col "RED"); run_m; split_telegram_eqn E; simpl;
      intros H; try discriminate H; congruence.
  - run_m. split_telegram_eqn E; simpl; intros H; try discriminate H; congruence.
Qed.

(** X10.  An exception that leaves [run_analysis] is the one Telegram raised
    for the first message or for the edit that reports the error; an
    exception that leaves [/search] is one that a Telegram call raised.  A
    failure of the model, of the JSON parsing or of the formatting never
    leaves them. *)
Theorem search_raises_only_telegram E msg w e :
  (forall content img,
     fst (run_analysis E msg content img w) = Raise e ->
     telegram_api E (thinking_call msg) = Raise e \/
     exists tid, telegram_api E (thinking_call msg) = Ok tid /\
                 telegram_api E (error_edit msg tid) = Raise e) /\
  (fst (search_command E msg w) = Raise e -> exists c, telegram_api E c = Raise e).
Proof.
  split; [intros content img; apply run_analysis_raise_cases|].
  unfold search_command, try_except_IndexError, try_except, bind, lift.
  destruct (index (split_space_1 (text msg)) 1) as [content|e0] eqn:Hidx.
  - destruct (run_analysis E msg content None w) as [[[]|e1] w1] eqn:Hrun; simpl.
    + discriminate.
    + assert (He1 : exists c, telegram_api E c = Raise e1).
      { pose proof (run_analysis_raise_cases E msg content None w e1) as H.
        rewrite Hrun in H. destruct (H eq_refl) as [H1|(tid & _ & H1)]; eauto. }
      destruct (exn_cls e1) eqn:Hcls; simpl; intros H;
        try (injection H as <-; exact He1).
      destruct (run_analysis_raise_cases E msg "" None w1 e H) as [H1|(tid & _ & H1)]; eauto.
  - unfold index in Hidx. destruct (_ !! 1); [discriminate|]. injection Hidx as <-.
    simpl. intros H.
    destruct (run_analysis_raise_cases E msg "" None w e H) as [H1|(tid & _ & H1)]; eauto.
Qed.

Lemma search_raises_only_telegram_witness :
  fst (search_command muted (message_of_42 "/search x") fresh_world) =
    Raise (Exn ApiTelegramException "Too Many Requests") /\
  exists c, telegram_api muted c = Raise (Exn ApiTelegramException "Too Many Requests").
Proof.
  split; [reflexivity|].
  destruct (search_raises_only_telegram muted (message_of_42 "/search x") fresh_world
              (Exn ApiTelegramException "Too Many Requests")) as [_ H].
  apply H. reflexivity.
Defined.

(** X11.  When the answer of the model is JSON and not an object (a list, a
    number), the analysis is not replaced by the AI-error verdict:
    formatting it raises AttributeError inside [run_analysis], which
    catches it.  The user sees the first message edited to the error text,
    the store is unchanged, and the last log line is an ERROR line of the
    user that names AttributeError. *)
Theorem non_object_answer_is_an_error E msg content img w resp tid i :
  no_content content img = false ->
  gemini E (analysis_request content img) = Ok resp ->
  resp_parts resp <> [] ->
  json_loads E (strip (resp_text resp)) = Some JNotDict ->
  telegram_api E (thinking_call msg) = Ok tid ->
  telegram_api E (error_edit msg tid) = Ok i ->
  let r := run_analysis E msg content img w in
  fst r = Ok tt /\
  same_store w (snd r) /\
  delivered (snd r) = (delivered w ++ [thinking_call msg; error_edit msg tid])%list /\
  exists line,
    last (bot_logs (snd r)) = Some line /\
    who line = LogUser (from_user msg) /\
    action line = "ERROR" /\
    String.prefix "Analysis loop crash: AttributeError(" (details line) = true.
Proof.
  intros Hnc Hg Hp Hj Ht He r. subst r.
  assert (Ha : analysis_result E content img = JNotDict).
  { unfold analysis_result. rewrite Hnc, Hg.
    destruct (resp_parts resp); [congruence|]. simpl. rewrite Hj. reflexivity. }
  unfold run_analysis; fold (thinking_call msg).
  unfold bot_call, bind, try_except, lift. rewrite Ht.
  pose proof (structured_analysis_spec E content img
                (add_delivered (thinking_call msg) w)) as (Hv & Hs & Hd & _).
  destruct (call_gemini_for_structured_analysis E content img _) as [r w1].
  simpl in Hv, Hs, Hd. subst r. rewrite Ha. run_m.
  fold (error_edit msg tid). rewrite He. simpl.
  destruct Hs as [Hs1 Hs2]. simpl in Hs1, Hs2.
  split; [reflexivity|]. split; [split; assumption|]. split.
  - rewrite Hd, <- app_assoc. reflexivity.
  - eexists. split; [apply last_snoc|]. repeat split.
Qed.

Lemma non_object_answer_is_an_error_witness :
  delivered (snd (run_analysis (answering JNotDict) (message_of_42 "/search x") "x" None
                               fresh_world)) =
    [thinking_call (message_of_42 "/search x"); error_edit (message_of_42 "/search x") 1].
Proof.
  destruct (non_object_answer_is_an_error
              (answering JNotDict) (message_of_42 "/search x") "x" None fresh_world
              (Response ["{...}"] "{...}") 1%Z 1%Z) as (_ & _ & H & _);
    [ first [reflexivity | discriminate] .. | exact H ].
Defined.

(* ================================================================== *)
(** * Handlers built on the analysis *)
(* ================================================================== *)

(** [/search] and the photo handler change the store only through
    [run_analysis]: a property of the world that is reflexive and
    transitive, that log lines, Telegram calls and requests keep, and that
    the analyses of a message keep, holds across the handlers of that
    message.  A photo that is not routed to the analysis needs nothing of
    [run_analysis]. *)
Section Handlers.
Variable P : world -> world -> Prop.
Variable msg : message.

Hypothesis P_refl : forall w, P w w.
Hypothesis P_trans : forall w1 w2 w3, P w1 w2 -> P w2 w3 -> P w1 w3.
Hypothesis P_log : forall w l, P w (add_log l w).
Hypothesis P_delivered : forall w c, P w (add_delivered c w).
Hypothesis P_requested : forall w r, P w (add_requested r w).
Hypothesis P_analysis : forall E content img, preserves P (run_analysis E msg content img).

Ltac handlers_frame :=
  repeat first
    [ apply P_analysis
    | apply (preserves_send_safe_reply P P_refl P_trans P_log P_delivered)
    | apply (preserves_image_description P P_refl P_trans P_log P_requested)
    | apply (preserves_bind P P_trans)
    | apply (preserves_try_except P P_trans)
    | apply (preserves_ret P P_refl) | apply (preserves_raise P P_refl)
    | apply (preserves_lift P P_refl)
    | apply (preserves_log_event P P_log)
    | apply (preserves_bot_call P P_refl P_delivered)
    | match goal with |- forall _, _ => intro end
    | match goal with
      | |- preserves _ (if ?b then _ else _) => destruct b
      | |- preserves _ (match ?x with _ => _ end) => destruct x
      end ].

Lemma search_command_keeps E : preserves P (search_command E msg).
Proof. unfold search_command, try_except_IndexError. handlers_frame. Qed.

Lemma handle_photo_keeps E : preserves P (handle_photo E msg).
Proof. unfold handle_photo, fetch_photo. handlers_frame. Qed.

Lemma photo_description_keeps E :
  String.prefix "/search" (lower (strip (get (caption msg) ""))) = false ->
  preserves P (handle_photo E msg).
Proof.
  intros H. unfold handle_photo, fetch_photo. rewrite H. handlers_frame.
Qed.
End Handlers.

(* ================================================================== *)
(** * One user at a time *)
(* ================================================================== *)

Lemma run_analysis_other_user E msg content img w u :
  u <> user_id_str msg ->
  stored_history u (bot_user_data (snd (run_analysis E msg content img w))) =
    stored_history u (bot_user_data w) /\
  stored_complaint u (bot_user_data (snd (run_analysis E msg content img w))) =
    stored_complaint u (bot_user_data w).
Proof.
  intros Hu. pose proof (run_analysis_store E msg content img w) as S. simpl in S.
  destruct (captured_complaint E msg content img) as [c|].
  - destruct S as [-> _].
    rewrite stored_history_set_last_complaint, stored_complaint_set_last_complaint.
    rewrite decide_False by congruence. split; reflexivity.
  - destruct S as [-> _]. split; reflexivity.
Qed.

Lemma handle_chat_complaints E msg w u :
  stored_complaint u (bot_user_data (snd (handle_chat E msg w))) =
  stored_complaint u (bot_user_data w).
Proof.
  pose proof (handle_chat_store E msg w) as [_ H]. simpl in H.
  destruct (contains Glyph.WARNING_SIGN _); destruct H as [-> _].
  - apply stored_complaint_ensure.
  - rewrite stored_complaint_set_history. apply stored_complaint_ensure.
Qed.

(** What an update leaves of the users who did not send it. *)
Lemma other_user_untouched E ev w u :
  u <> user_id_str (event_message ev) ->
  stored_history u (bot_user_data (step w (E, ev))) = stored_history u (bot_user_data w) /\
  stored_complaint u (bot_user_data (step w (E, ev))) = stored_complaint u (bot_user_data w).
Proof.
  intros Hu. unfold step. cbn [fst snd].
  set (P := fun w w' : world =>
              stored_history u (bot_user_data w') = stored_history u (bot_user_data w) /\
              stored_complaint u (bot_user_data w') = stored_complaint u (bot_user_data w)).
  assert (Hrefl : forall w0, P w0 w0) by (intros w0; split; reflexivity).
  assert (Htrans : forall w1 w2 w3, P w1 w2 -> P w2 w3 -> P w1 w3).
  { intros w1 w2 w3 [H1 H2] [H3 H4]. split; congruence. }
  assert (Hlog : forall w0 l, P w0 (add_log l w0)) by (intros; split; reflexivity).
  assert (Hdel : forall w0 c, P w0 (add_delivered c w0)) by (intros; split; reflexivity).
  assert (Hreq : forall w0 r, P w0 (add_requested r w0)) by (intros; split; reflexivity).
  change (P w (snd (handler E ev w))).
  destruct ev as [m|m|m|m|m]; cbn [handler event_message] in *.
  - apply (preserves_send_welcome P Hrefl Htrans Hlog Hdel).
  - apply (search_command_keeps P m Hrefl Htrans).
    intros E0 c i w0. apply run_analysis_other_user, Hu.
  - apply (preserves_complaint_cmd P Hrefl Htrans Hlog Hdel).
  - apply (handle_photo_keeps P m Hrefl Htrans Hlog Hdel Hreq).
    intros E0 c i w0. apply run_analysis_other_user, Hu.
  - split.
    + rewrite handle_chat_histories. rewrite decide_False by congruence. reflexivity.
    + apply handle_chat_complaints.
Qed.

(** X12.  Updates, whatever their kind and whatever the outside world does,
    change neither the history nor the complaint of a user who sent none
    of them: after any sequence of updates of other users both are as
    before. *)
Theorem updates_touch_only_their_user (l : list (env * event)) (w : world) (u : string) :
  Forall (fun x => u <> user_id_str (event_message (snd x))) l ->
  stored_history u (bot_user_data (run w l)) = stored_history u (bot_user_data w) /\
  stored_complaint u (bot_user_data (run w l)) = stored_complaint u (bot_user_data w).
Proof.
  intros H. revert w. induction H as [|[E ev] l Hx _ IH]; intros w.
  - split; reflexivity.
  - destruct (IH (step w (E, ev))) as [H1 H2].
    destruct (other_user_untouched E ev w u Hx) as [H3 H4].
    change (run w ((E, ev) :: l)) with (run (step w (E, ev)) l).
    split; congruence.
Qed.

Lemma updates_touch_only_their_user_witness :
  Forall (fun x => "7" <> user_id_str (event_message (snd x)))
         [(answering (JDict scam), CmdSearch (message_of_42 "/search x"));
          (talking "Hello!", Chat (message_of_42 "hi"))] /\
  stored_complaint "7"
    (bot_user_data (run fresh_world
                      [(answering (JDict scam), CmdSearch (message_of_42 "/search x"));
                       (talking "Hello!", Chat (message_of_42 "hi"))])) = None /\
  stored_complaint "42"
    (bot_user_data (run fresh_world
                      [(answering (JDict scam), CmdSearch (message_of_42 "/search x"));
                       (talking "Hello!", Chat (message_of_42 "hi"))])) =
    Some (complaint_text_of "x" scam).
Proof.
  assert (H : Forall (fun x => "7" <> user_id_str (event_message (snd x)))
                [(answering (JDict scam), CmdSearch (message_of_42 "/search x"));
                 (talking "Hello!", Chat (message_of_42 "hi"))]).
  { repeat constructor; discriminate. }
  split; [exact H|].
  destruct (updates_touch_only_their_user _ fresh_world "7" H) as [_ Hc].
  split; [rewrite Hc; reflexivity|reflexivity].
Defined.

(** X13.  The history of a user changes only by a chat message of that user
    whose response has no error marker; the complaint of a user changes
    only by a [/search] command or a photo of that user. *)
Theorem changes_have_one_cause E ev w u :
  (stored_history u (bot_user_data (step w (E, ev))) <> stored_history u (bot_user_data w) ->
   exists m, ev = Chat m /\ user_id_str m = u /\
             contains Glyph.WARNING_SIGN
               (chat_response E (text m) (stored_history u (bot_user_data w))) = false) /\
  (stored_complaint u (bot_user_data (step w (E, ev)))
     <> stored_complaint u (bot_user_data w) ->
   (exists m, ev = CmdSearch m /\ user_id_str m = u) \/
   (exists m, ev = Photo m /\ user_id_str m = u)).
Proof.
  split; intros Hch.
  - destruct ev as [m|m|m|m|m];
      try (exfalso; apply Hch; apply same_histories_outside_chat; intros m' Hm';
           discriminate Hm').
    exists m. split; [reflexivity|].
    unfold step in Hch. cbn [fst snd handler] in Hch.
    rewrite handle_chat_histories in Hch.
    destruct (decide (user_id_str m = u)) as [Heq|Hne]; [|congruence].
    split; [exact Heq|]. rewrite <- Heq.
    destruct (contains Glyph.WARNING_SIGN _); [congruence|reflexivity].
  - destruct (decide (u = user_id_str (event_message ev))) as [Heq|Hne].
    + destruct ev as [m|m|m|m|m]; cbn [event_message] in Heq.
      * exfalso. apply Hch. apply same_complaints_outside_analysis; discriminate.
      * left. eauto.
      * exfalso. apply Hch. apply same_complaints_outside_analysis; discriminate.
      * right. eauto.
      * exfalso. apply Hch. apply same_complaints_outside_analysis; discriminate.
    + exfalso. apply Hch. apply other_user_untouched, Hne.
Qed.

Lemma changes_have_one_cause_witness :
  stored_history "42" (bot_user_data (step fresh_world (talking "Hello!",
                                                        Chat (message_of_42 "hi"))))
    <> stored_history "42" (bot_user_data fresh_world) /\
  exists m, Chat (message_of_42 "hi") = Chat m /\ user_id_str m = "42".
Proof.
  assert (H : stored_history "42"
                (bot_user_data (step fresh_world (talking "Hello!",
                                                  Chat (message_of_42 "hi"))))
              <> stored_history "42" (bot_user_data fresh_world)) by discriminate.
  split; [exact H|].
  destruct (changes_have_one_cause (talking "Hello!") (Chat (message_of_42 "hi"))
              fresh_world "42") as [Hc _].
  destruct (Hc H) as (m & Hm & Hu & _). eauto.
Defined.

(* ================================================================== *)
(** * The file and the dictionary; the shape of a history *)
(* ================================================================== *)

Lemma load_depends_on_file w w' :
  user_data_json w' = user_data_json w ->
  fst (load_user_data w') = fst (load_user_data w).
Proof. intros H. rewrite !load_user_data_cases, H. reflexivity. Qed.

Lemma durable_ext w w' :
  user_data_json w' = user_data_json w ->
  (forall u, stored_history u (bot_user_data w') = stored_history u (bot_user_data w) /\
             stored_complaint u (bot_user_data w') = stored_complaint u (bot_user_data w)) ->
  durable w -> durable w'.
Proof.
  intros Hf Hd (d & Hl & Hu). exists d. split.
  - rewrite (load_depends_on_file w w' Hf). exact Hl.
  - intros u. destruct (Hu u) as [H1 H2]. destruct (Hd u) as [H3 H4].
    split; congruence.
Qed.

Lemma durable_saved w :
  user_data_json w = JsonStore (bot_user_data w) -> durable w.
Proof.
  intros H. exists (bot_user_data w). split.
  - rewrite load_user_data_cases, H. reflexivity.
  - intros u. split; reflexivity.
Qed.

Lemma durable_step w x : durable w -> durable (step w x).
Proof.
  destruct x as [E ev]. unfold step. cbn [fst snd].
  set (P := fun w w' : world => durable w -> durable w').
  assert (Hrefl : forall w0, P w0 w0) by (intros w0 H; exact H).
  assert (Htrans : forall w1 w2 w3, P w1 w2 -> P w2 w3 -> P w1 w3).
  { intros w1 w2 w3 H1 H2 H. apply H2, H1, H. }
  assert (Hsame : forall w0 w1, same_store w0 w1 -> P w0 w1).
  { intros w0 w1 [Hd Hf]. unfold P. apply durable_ext; [exact Hf|].
    intros u. rewrite Hd. split; reflexivity. }
  assert (Hlog : forall w0 l, P w0 (add_log l w0))
    by (intros; apply Hsame; split; reflexivity).
  assert (Hdel : forall w0 c, P w0 (add_delivered c w0))
    by (intros; apply Hsame; split; reflexivity).
  assert (Hreq : forall w0 r, P w0 (add_requested r w0))
    by (intros; apply Hsame; split; reflexivity).
  assert (Hana : forall m E0 c i, preserves P (run_analysis E0 m c i)).
  { intros m E0 c i w0. pose proof (run_analysis_store E0 m c i w0) as S. simpl in S.
    destruct (captured_complaint E0 m c i).
    - destruct S as [_ S]. unfold P. intros _. apply durable_saved, S.
    - apply Hsame, S. }
  change (P w (snd (handler E ev w))).
  destruct ev as [m|m|m|m|m]; cbn [handler].
  - apply (preserves_send_welcome P Hrefl Htrans Hlog Hdel).
  - apply (search_command_keeps P m Hrefl Htrans (Hana m)).
  - apply (preserves_complaint_cmd P Hrefl Htrans Hlog Hdel).
  - apply (handle_photo_keeps P m Hrefl Htrans Hlog Hdel Hreq (Hana m)).
  - unfold P. pose proof (handle_chat_store E m w) as [_ H]. simpl in H.
    destruct (contains Glyph.WARNING_SIGN _).
    + destruct H as [Hd Hf]. apply durable_ext; [exact Hf|].
      intros u. rewrite Hd, stored_history_ensure, stored_complaint_ensure.
      split; reflexivity.
    + destruct H as [_ Hf]. intros _. apply durable_saved, Hf.
Qed.

(** X14.  A restart between two updates loses no history and no complaint.
    When [load_user_data] returns a dictionary that agrees with the
    dictionary of the process on the history and the complaint of every
    user (as right after a start), it still does after any sequence of
    updates, whatever the model and Telegram do. *)
Theorem restart_loses_nothing (l : list (env * event)) (w : world) :
  durable w -> durable (run w l).
Proof.
  revert w. induction l as [|x l IH]; intros w H; [exact H|].
  apply IH, durable_step, H.
Qed.

Lemma restart_loses_nothing_witness :
  durable fresh_world /\ durable (run fresh_world four_chats).
Proof.
  assert (H : durable fresh_world).
  { exists ∅. split; [reflexivity|]. intros u. split; reflexivity. }
  split; [exact H|]. apply (restart_loses_nothing four_chats fresh_world H).
Defined.

Lemma pairs_length (l : list (string * string)) :
  length (flat_map (fun x => turn_pair (fst x) (snd x)) l) = 2 * length l.
Proof. induction l as [|x l IH]; simpl; [reflexivity|]. rewrite IH. lia. Qed.

Lemma pairs_drop (k : nat) (l : list (string * string)) :
  drop (2 * k) (flat_map (fun x => turn_pair (fst x) (snd x)) l) =
  flat_map (fun x => turn_pair (fst x) (snd x)) (drop k l).
Proof.
  revert l. induction k as [|k IH]; intros l; [reflexivity|].
  destruct l as [|x l]; [reflexivity|].
  replace (2 * S k) with (S (S (2 * k))) by lia. simpl. apply IH.
Qed.

Lemma whole_exchanges_last_items (h : list turn) :
  whole_exchanges h -> whole_exchanges (last_items CHAT_HISTORY_LIMIT h).
Proof.
  intros [l ->]. exists (drop (length l - 3) l).
  unfold last_items, CHAT_HISTORY_LIMIT. rewrite pairs_length.
  replace (2 * length l - 6) with (2 * (length l - 3)) by lia.
  apply pairs_drop.
Qed.

Lemma whole_exchanges_app (h : list turn) (q r : string) :
  whole_exchanges h -> whole_exchanges (h ++ turn_pair q r).
Proof.
  intros [l ->]. exists (l ++ [(q, r)])%list.
  rewrite flat_map_app. reflexivity.
Qed.

Lemma whole_exchanges_roles (h : list turn) :
  whole_exchanges h ->
  forall i t, h !! i = Some t -> role t = if Nat.even i then "user" else "model".
Proof.
  intros [l ->]. induction l as [|x l IH]; intros i t H; [discriminate H|].
  destruct i as [|[|i]]; simpl in H.
  - injection H as <-. reflexivity.
  - injection H as <-. reflexivity.
  - change (Nat.even (S (S i))) with (Nat.even i). apply IH, H.
Qed.

Lemma whole_exchanges_step w x u :
  whole_exchanges (stored_history u (bot_user_data w)) ->
  whole_exchanges (stored_history u (bot_user_data (step w x))).
Proof.
  intros H. destruct x as [E ev].
  destruct ev as [m|m|m|m|m];
    try (rewrite same_histories_outside_chat
           by (intros m' Hm'; discriminate Hm'); exact H).
  unfold step. cbn [fst snd handler]. rewrite handle_chat_histories.
  destruct (decide (user_id_str m = u)) as [Heq|Hne]; [|exact H].
  rewrite Heq. destruct (contains Glyph.WARNING_SIGN _); [exact H|].
  apply whole_exchanges_last_items, whole_exchanges_app, H.
Qed.

(** X15.  A history made of whole exchanges stays one across any sequence of
    updates: cutting to the last 6 entries never splits an exchange.  Its
    length is even, the entries at even positions have the role [user] and
    those at odd positions the role [model]. *)
Theorem histories_alternate (l : list (env * event)) (w : world) (u : string) :
  whole_exchanges (stored_history u (bot_user_data w)) ->
  whole_exchanges (stored_history u (bot_user_data (run w l))) /\
  Nat.Even (length (stored_history u (bot_user_data (run w l)))) /\
  forall i t, stored_history u (bot_user_data (run w l)) !! i = Some t ->
              role t = if Nat.even i then "user" else "model".
Proof.
  intros H.
  assert (Hw : whole_exchanges (stored_history u (bot_user_data (run w l)))).
  { revert w H. induction l as [|x l IH]; intros w H; [exact H|].
    apply IH, whole_exchanges_step, H. }
  split; [exact Hw|]. split.
  - destruct Hw as [p Hp]. rewrite Hp, pairs_length. exists (length p). lia.
  - apply whole_exchanges_roles, Hw.
Qed.

Lemma histories_alternate_witness :
  whole_exchanges (stored_history "42" (bot_user_data fresh_world)) /\
  Nat.Even (length (stored_history "42" (bot_user_data (run fresh_world four_chats)))).
Proof.
  assert (H : whole_exchanges (stored_history "42" (bot_user_data fresh_world)))
    by (exists []; reflexivity).
  split; [exact H|].
  apply (histories_alternate four_chats fresh_world "42" H).
Defined.

(* ================================================================== *)
(** * The chat handler *)
(* ================================================================== *)

Lemma handle_chat_traces E msg w :
  let uid := user_id_str msg in
  let hist := stored_history uid (bot_user_data w) in
  let response := chat_response E (text msg) hist in
  let w' := snd (handle_chat E msg w) in
  requested w' =
    (requested w ++ [SendMessage (last_items CHAT_HISTORY_LIMIT hist) (text msg)])%list /\
  delivered w' =
    (delivered w ++ match telegram_api E (ReplyTo msg response None) with
                    | Ok _ => [ReplyTo msg response None]
                    | Raise _ => []
                    end)%list.
Proof.
  intros uid hist response w'. subst w'. unfold handle_chat. fold uid.
  unfold bind, modify, gets.
  change (bot_user_data (set_bot_user_data (ensure_record uid (bot_user_data w)) w))
    with (ensure_record uid (bot_user_data w)).
  rewrite stored_history_ensure. fold hist.
  set (w0 := set_bot_user_data _ w).
  pose proof (chat_spec E (text msg) hist w0) as (Hv & _ & Hd & Hr).
  destruct (call_gemini_for_chat E (text msg) hist w0) as [r w1].
  simpl in Hv, Hd, Hr. subst r. fold response.
  rewrite send_safe_reply_cases.
  change (requested w0) with (requested w) in Hr.
  change (delivered w0) with (delivered w) in Hd.
  destruct (telegram_api E (ReplyTo msg response None)) as [i|e];
    destruct (contains Glyph.WARNING_SIGN response); run_m;
    rewrite Hr, Hd, ?app_nil_r; split; reflexivity.
Qed.

Lemma unavailable_has_marker : contains Glyph.WARNING_SIGN UNAVAILABLE = true.
Proof. reflexivity. Qed.

(** X16.  A chat message sends exactly one request to the model, with the
    text of the message and the last 6 entries of the sender's history (the
    whole history when it has at most 6), and at most one Telegram message:
    the response, delivered when Telegram accepts it.  When the model call
    raises, the response is the fixed text that the AI is unavailable, and
    no history and not the file change. *)
Theorem chat_one_request_one_reply E msg w :
  let uid := user_id_str msg in
  let hist := stored_history uid (bot_user_data w) in
  let response := chat_response E (text msg) hist in
  let w' := snd (handle_chat E msg w) in
  requested w' =
    (requested w ++ [SendMessage (last_items CHAT_HISTORY_LIMIT hist) (text msg)])%list /\
  length (last_items CHAT_HISTORY_LIMIT hist) <= 6 /\
  (length hist <= 6 -> last_items CHAT_HISTORY_LIMIT hist = hist) /\
  (forall i, telegram_api E (ReplyTo msg response None) = Ok i ->
             delivered w' = (delivered w ++ [ReplyTo msg response None])%list) /\
  (forall e, telegram_api E (ReplyTo msg response None) = Raise e ->
             delivered w' = delivered w) /\
  (forall e, gemini E (SendMessage (last_items CHAT_HISTORY_LIMIT hist) (text msg)) = Raise e ->
             response = UNAVAILABLE /\ same_histories w w' /\
             user_data_json w' = user_data_json w).
Proof.
  intros uid hist response w'.
  pose proof (handle_chat_traces E msg w) as [Hr Hd]. simpl in Hr, Hd.
  fold uid hist response w' in Hr, Hd.
  split; [exact Hr|]. split; [apply last_items_length; discriminate|].
  split; [apply last_items_short|].
  split; [intros i Hi; rewrite Hd, Hi; reflexivity|].
  split; [intros e He; rewrite Hd, He; apply app_nil_r|].
  intros e He.
  assert (Hresp : response = UNAVAILABLE).
  { unfold response, chat_response. rewrite He. reflexivity. }
  split; [exact Hresp|].
  pose proof (handle_chat_store E msg w) as [_ H]. simpl in H.
  fold uid hist response w' in H. rewrite Hresp, unavailable_has_marker in H.
  destruct H as [Hdict Hfile]. split; [|exact Hfile].
  intros u. rewrite Hdict. apply stored_history_ensure.
Qed.

Lemma chat_one_request_one_reply_witness :
  gemini offline (SendMessage (last_items CHAT_HISTORY_LIMIT
                                 (stored_history "42" (bot_user_data fresh_world))) "hi")
    = Raise (Exn GoogleAPIError "503 Service Unavailable") /\
  chat_response offline "hi" [] = UNAVAILABLE /\
  delivered (snd (handle_chat offline (message_of_42 "hi") fresh_world)) =
    [ReplyTo (message_of_42 "hi") UNAVAILABLE None].
Proof.
  split; [reflexivity|].
  destruct (chat_one_request_one_reply offline (message_of_42 "hi") fresh_world)
    as (_ & _ & _ & Hd & _ & Hf).
  split.
  - destruct (Hf (Exn GoogleAPIError "503 Service Unavailable") eq_refl) as [H _]. exact H.
  - apply (Hd 1%Z). reflexivity.
Defined.

(** X17.  An exchange is recorded even when its reply is not delivered.
    When Telegram rejects the reply to a chat message and the response has
    no error marker, the handler returns, nothing is delivered, the
    sender's history is the old one followed by the new pair, cut to the
    last 6, and the file is rewritten from the dictionary. *)
Theorem chat_recorded_even_if_undelivered E msg w e :
  let uid := user_id_str msg in
  let hist := stored_history uid (bot_user_data w) in
  let response := chat_response E (text msg) hist in
  let w' := snd (handle_chat E msg w) in
  telegram_api E (ReplyTo msg response None) = Raise e ->
  contains Glyph.WARNING_SIGN response = false ->
  fst (handle_chat E msg w) = Ok tt /\
  delivered w' = delivered w /\
  stored_history uid (bot_user_data w') =
    last_items CHAT_HISTORY_LIMIT (hist ++ turn_pair (text msg) response) /\
  user_data_json w' = JsonStore (bot_user_data w').
Proof.
  intros uid hist response w' Ht Hm.
  pose proof (handle_chat_traces E msg w) as [_ Hd]. simpl in Hd.
  fold uid hist response w' in Hd. rewrite Ht, app_nil_r in Hd.
  pose proof (handle_chat_store E msg w) as [Hok H]. simpl in H.
  fold uid hist response w' in H. rewrite Hm in H. destruct H as [_ Hfile].
  pose proof (handle_chat_histories E msg w uid) as Hh. simpl in Hh.
  fold uid hist response w' in Hh. rewrite decide_True in Hh by reflexivity.
  rewrite Hm in Hh. auto.
Qed.

Lemma chat_recorded_even_if_undelivered_witness :
  telegram_api muted (ReplyTo (message_of_42 "hi") "Hello!" None) =
    Raise (Exn ApiTelegramException "Too Many Requests") /\
  delivered (snd (handle_chat muted (message_of_42 "hi") fresh_world)) = [] /\
  stored_history "42" (bot_user_data (snd (handle_chat muted (message_of_42 "hi") fresh_world)))
    = turn_pair "hi" "Hello!".
Proof.
  split; [reflexivity|].
  destruct (chat_recorded_even_if_undelivered muted (message_of_42 "hi") fresh_world
              (Exn ApiTelegramException "Too Many Requests"))
    as (_ & Hd & Hh & _); [reflexivity|reflexivity|].
  split; [exact Hd|exact Hh].
Defined.

(* ================================================================== *)
(** * The text that is analysed; photos *)
(* ================================================================== *)

Lemma prefix_space (c : ascii) (s : string) :
  String.prefix " " (String c s) = Ascii.eqb c " "%char.
Proof.
  cbn [String.prefix]. destruct (ascii_dec " " c) as [<-|Hne].
  - destruct s; reflexivity.
  - symmetry. apply Ascii.eqb_neq. congruence.
Qed.

Lemma split_space_1_app (cmd rest : string) :
  contains " " cmd = false -> split_space_1 (cmd +:+ " " +:+ rest) = [cmd; rest].
Proof.
  induction cmd as [|c cmd IH]; intros H.
  - reflexivity.
  - cbn [contains] in H. rewrite prefix_space in H.
    apply orb_false_iff in H as [Hc Hrest].
    change (String c cmd +:+ " " +:+ rest) with (String c (cmd +:+ " " +:+ rest)).
    cbn [split_space_1]. rewrite Hc, (IH Hrest). reflexivity.
Qed.

Lemma contains_space_app (cmd rest : string) :
  contains " " (cmd +:+ " " +:+ rest) = true.
Proof.
  induction cmd as [|c cmd IH].
  - change (contains " " (String " " rest) = true).
    cbn [contains]. rewrite prefix_space. reflexivity.
  - change (String c cmd +:+ " " +:+ rest) with (String c (cmd +:+ " " +:+ rest)).
    cbn [contains]. rewrite IH. apply orb_true_r.
Qed.

Lemma split_space_1_none (s : string) :
  contains " " s = false -> split_space_1 s = [s].
Proof.
  induction s as [|c s IH]; intros H; [reflexivity|].
  cbn [contains] in H. rewrite prefix_space in H.
  apply orb_false_iff in H as [Hc Hrest].
  cbn [split_space_1]. rewrite Hc, (IH Hrest). reflexivity.
Qed.

(** X18.  For a message whose text has a space, [/search] is [run_analysis]
    on the text after the first space, with no image, provided that
    Telegram raises no IndexError (which the handler would take for a
    missing text). *)
Theorem search_analyses_text_after_first_space E msg w cmd rest :
  text msg = cmd +:+ " " +:+ rest ->
  contains " " cmd = false ->
  (forall c e, telegram_api E c = Raise e -> exn_cls e <> IndexError) ->
  search_command E msg w = run_analysis E msg rest None w.
Proof.
  intros Ht Hc Hapi.
  unfold search_command, try_except_IndexError, try_except, bind, lift.
  rewrite Ht, (split_space_1_app cmd rest Hc). cbn [index lookup list_lookup].
  destruct (run_analysis E msg rest None w) as [[[]|e] w1] eqn:Hrun; [reflexivity|].
  assert (Hne : exn_cls e <> IndexError).
  { pose proof (run_analysis_raise_cases E msg rest None w e) as H.
    rewrite Hrun in H. destruct (H eq_refl) as [H1|(tid & _ & H1)]; eapply Hapi; eauto. }
  destruct (exn_cls e); try reflexivity. congruence.
Qed.

Lemma search_analyses_text_after_first_space_witness :
  text (message_of_42 "/search Win a free iPhone now") =
    "/search" +:+ " " +:+ "Win a free iPhone now" /\
  search_command (answering (JDict scam)) (message_of_42 "/search Win a free iPhone now")
                 fresh_world =
  run_analysis (answering (JDict scam)) (message_of_42 "/search Win a free iPhone now")
               "Win a free iPhone now" None fresh_world.
Proof.
  split; [reflexivity|].
  apply (search_analyses_text_after_first_space
           (answering (JDict scam)) (message_of_42 "/search Win a free iPhone now")
           fresh_world "/search" "Win a free iPhone now").
  - reflexivity.
  - reflexivity.
  - intros c e H. discriminate H.
Defined.

Lemma image_description_spec E img capt w :
  let r := call_gemini_for_image_description E img capt w in
  (exists s, fst r = Ok s) /\
  same_store w (snd r) /\
  delivered (snd r) = delivered w /\
  requested (snd r) = (requested w ++ [description_request img capt])%list.
Proof.
  unfold call_gemini_for_image_description, same_store.
  fold (description_request img capt). run_m.
  destruct (gemini E (description_request img capt)) as [resp|e]; simpl; [|eauto 6].
  destruct (truthy_list (resp_parts resp)); simpl; eauto 6.
Qed.

Lemma run_analysis_requested_sent E msg content img w tid :
  telegram_api E (thinking_call msg) = Ok tid ->
  requested (snd (run_analysis E msg content img w)) =
    (requested w ++ analysis_requests content img)%list.
Proof.
  intros Hthink.
  unfold run_analysis. fold (thinking_call msg).
  unfold bot_call, bind, try_except, lift. rewrite Hthink.
  pose proof (structured_analysis_spec E content img
                (add_delivered (thinking_call msg) w)) as (Hv & _ & _ & Hr).
  destruct (call_gemini_for_structured_analysis E content img _) as [r w1].
  simpl in Hv, Hr. subst r.
  destruct (analysis_result E content img) as [d|].
  - destruct (format_analysis_reply_ok d) as [s Hs]. rewrite Hs.
    rewrite get_result_color_dict.
    set (col := if _ : bool then "RED" else _).
    destruct (String.eqb col "RED"); run_m; split_telegram E; simpl; exact Hr.
  - run_m. split_telegram E; simpl; exact Hr.
Qed.

Lemma analysis_requests_image content img :
  analysis_requests content (Some img) = [analysis_request content (Some img)].
Proof. unfold analysis_requests, no_content. rewrite andb_false_r. reflexivity. Qed.

(** What the handler of a failed photo search does. *)
Lemma photo_search_handler E msg e w :
  (log_event (LogUser (from_user msg)) "ERROR" ("Photo search failed: " +:+ repr e) ;;;
   send_safe_reply E msg
     (Glyph.CROSS_MARK +:+ " Error processing your image search request.") None) w =
  (Ok tt,
   match telegram_api E (photo_search_error msg) with
   | Ok _ => add_delivered (photo_search_error msg)
               (add_log (LogLine (LogUser (from_user msg)) "ERROR"
                                 ("Photo search failed: " +:+ repr e)) w)
   | Raise e' => add_log (LogLine (LogUser (from_user msg)) "SEND_FAIL"
                                  ("Failed to send: " +:+ exn_message e'))
                   (add_log (LogLine (LogUser (from_user msg)) "ERROR"
                                     ("Photo search failed: " +:+ repr e)) w)
   end).
Proof.
  unfold bind, log_event, modify. rewrite send_safe_reply_cases. reflexivity.
Qed.


(** X19.  A photo whose caption starts with [/search] and whose image cannot
    be had (the message has no photo size, or the download fails): the
    handler returns, no analysis starts (no request to the model, no
    "Analyzing" message), the store is unchanged, and the only message is
    the fixed error reply, when Telegram accepts it. *)
Theorem photo_search_without_image E msg w :
  String.prefix "/search" (lower (strip (get (caption msg) ""))) = true ->
  no_image E msg ->
  let w' := snd (handle_photo E msg w) in
  fst (handle_photo E msg w) = Ok tt /\
  same_store w w' /\
  requested w' = requested w /\
  (forall i, telegram_api E (photo_search_error msg) = Ok i ->
             delivered w' = (delivered w ++ [photo_search_error msg])%list) /\
  (forall e, telegram_api E (photo_search_error msg) = Raise e ->
             delivered w' = delivered w).
Proof.
  intros Hp Hno w'. subst w'. unfold handle_photo. rewrite Hp.
  match goal with |- context [try_except ?m ?h] => set (inner := m) end.
  assert (Hfetch : forall w0, exists e, fetch_photo E msg w0 = (Raise e, w0)).
  { intros w0. unfold fetch_photo, lift, raise.
    destruct Hno as [->|(pid & e & -> & ->)]; eauto. }
  assert (Hinner : exists e, inner w = (Raise e, w)).
  { subst inner. unfold bind.
    destruct (contains " " (get (caption msg) "")).
    - unfold lift. destruct (index _ 1) as [c|e0]; [|eauto].
      destruct (Hfetch w) as [e ->]. eauto.
    - unfold ret. destruct (Hfetch w) as [e ->]. eauto. }
  destruct Hinner as [e He].
  unfold try_except. rewrite He.
  rewrite photo_search_handler. unfold same_store.
  destruct (telegram_api E (photo_search_error msg)) as [i|e'];
    simpl; repeat split; intros; congruence.
Qed.

Lemma photo_search_without_image_witness :
  no_image offline (photo_of_42 "/search is this real?") /\
  fst (handle_photo offline (photo_of_42 "/search is this real?") fresh_world) = Ok tt /\
  requested (snd (handle_photo offline (photo_of_42 "/search is this real?") fresh_world)) = [] /\
  delivered (snd (handle_photo offline (photo_of_42 "/search is this real?") fresh_world)) =
    [photo_search_error (photo_of_42 "/search is this real?")].
Proof.
  assert (Hno : no_image offline (photo_of_42 "/search is this real?")).
  { right. exists "large", (Exn RequestException "connection refused").
    split; reflexivity. }
  split; [exact Hno|].
  destruct (photo_search_without_image offline (photo_of_42 "/search is this real?")
              fresh_world eq_refl Hno) as (H1 & _ & H2 & H3 & _).
  split; [exact H1|]. split; [exact H2|]. apply (H3 1%Z). reflexivity.
Defined.

(** X20.  A photo whose caption starts with [/search], whose image is
    downloaded and whose first message is delivered: the handler returns
    and sends exactly one analysis request, made of the image and of the
    caption text after the first space, also when that text is empty (no
    space in the caption).  The text is cut from the caption as sent, not
    from the stripped one. *)
Theorem photo_search_asks_the_model E msg w pid img tid :
  String.prefix "/search" (lower (strip (get (caption msg) ""))) = true ->
  last (photo msg) = Some pid ->
  download E pid = Ok img ->
  telegram_api E (thinking_call msg) = Ok tid ->
  let w' := snd (handle_photo E msg w) in
  fst (handle_photo E msg w) = Ok tt /\
  (forall cmd rest,
     get (caption msg) "" = cmd +:+ " " +:+ rest -> contains " " cmd = false ->
     requested w' = (requested w ++ [analysis_request rest (Some img)])%list) /\
  (contains " " (get (caption msg) "") = false ->
   requested w' = (requested w ++ [analysis_request "" (Some img)])%list).
Proof.
  intros Hp Hlast Hdl Hthink w'. subst w'. unfold handle_photo. rewrite Hp.
  match goal with |- context [try_except ?m ?h] => set (inner := m); set (h0 := h) end.
  assert (Hok : fst (try_except inner h0 w) = Ok tt).
  { unfold try_except. destruct (inner w) as [[[]|e] w1]; [reflexivity|].
    subst h0. cbv beta. rewrite photo_search_handler. reflexivity. }
  assert (Hreq : forall content,
            (if contains " " (get (caption msg) "")
             then lift (index (split_space_1 (get (caption msg) "")) 1) else ret "") w
              = (Ok content, w) ->
            requested (snd (try_except inner h0 w)) =
              (requested w ++ [analysis_request content (Some img)])%list).
  { intros content Hc.
    assert (Hin : inner w = run_analysis E msg content (Some img) w).
    { subst inner. unfold bind at 1. rewrite Hc. unfold bind, fetch_photo.
      rewrite Hlast. unfold lift. rewrite Hdl. reflexivity. }
    pose proof (run_analysis_requested_sent E msg content (Some img) w tid Hthink) as Hr.
    rewrite analysis_requests_image in Hr. rewrite <- Hin in Hr.
    unfold try_except. destruct (inner w) as [[[]|e] w1]; [exact Hr|].
    subst h0. cbv beta. rewrite photo_search_handler.
    destruct (telegram_api E (photo_search_error msg)); exact Hr. }
  split; [exact Hok|]. split.
  - intros cmd rest Hcap Hcmd. apply Hreq.
    rewrite Hcap, contains_space_app, (split_space_1_app cmd rest Hcmd). reflexivity.
  - intros Hc. apply Hreq. rewrite Hc. reflexivity.
Qed.

Lemma photo_search_asks_the_model_witness :
  get (caption (photo_of_42 " /search is this real?")) "" =
    "" +:+ " " +:+ "/search is this real?" /\
  requested (snd (handle_photo (online (JDict scam)) (photo_of_42 " /search is this real?")
                               fresh_world)) =
    [analysis_request "/search is this real?" (Some (Image "large"))].
Proof.
  split; [reflexivity|].
  destruct (photo_search_asks_the_model (online (JDict scam))
              (photo_of_42 " /search is this real?")
              fresh_world "large" (Image "large") 1%Z eq_refl eq_refl eq_refl eq_refl)
    as (_ & H & _).
  apply (H "" "/search is this real?"); reflexivity.
Defined.

Lemma description_branch E msg w :
  String.prefix "/search" (lower (strip (get (caption msg) ""))) = false ->
  handle_photo E msg w =
  match telegram_api E (describing_call msg) with
  | Raise e => (Raise e, w)
  | Ok tid =>
      try_except
        (img <- fetch_photo E msg ;;
         analysis_result <- call_gemini_for_image_description E img (get (caption msg) "") ;;
         bot_call E (EditMessageText analysis_result (chat_id msg) tid (Some "Markdown")) ;;;
         log_event (LogUser (from_user msg)) "IMAGE_DESCRIPTION_SUCCESS" "")
        (fun e =>
           log_event (LogUser (from_user msg)) "ERROR"
                     ("Photo description failed: " +:+ repr e) ;;;
           bot_call E (description_error_edit msg tid) ;;;
           ret tt)
        (add_delivered (describing_call msg) w)
  end.
Proof.
  intros Hp. unfold handle_photo. rewrite Hp. fold (describing_call msg).
  unfold bind at 1. unfold bot_call at 1.
  destruct (telegram_api E (describing_call msg)); reflexivity.
Qed.

(** The routing test of [handle_photo] sees [/search] behind white space
    that is not ASCII, here a no-break space before and an ideographic
    space after, and in any case of the letters. *)
Lemma routed_behind_unicode_space :
  String.prefix "/search"
    (lower (strip (String "194" (String "160" "/Search x")
                   +:+ String "227" (String "128" (String "128" ""))))) = true /\
  strip (String "194" (String "160" "/Search x")
         +:+ String "227" (String "128" (String "128" ""))) = "/Search x".
Proof. split; reflexivity. Qed.

(** X21.  A photo whose caption, stripped of the white space of Unicode
    around it and in lower case, does not start with [/search] never changes
    the store.  When Telegram rejects the first message the handler raises
    that exception and the world is as before.  Otherwise there is no
    request to the model when the image cannot be had, and exactly one
    description request, with the image and the caption, when it is
    downloaded.  An exception that leaves the handler is Telegram's, for
    the first message or for the edit that reports the error. *)
Theorem photo_description_outcomes E msg w :
  String.prefix "/search" (lower (strip (get (caption msg) ""))) = false ->
  let w' := snd (handle_photo E msg w) in
  same_store w w' /\
  (forall e, telegram_api E (describing_call msg) = Raise e ->
             handle_photo E msg w = (Raise e, w)) /\
  (forall tid, telegram_api E (describing_call msg) = Ok tid ->
     (no_image E msg -> requested w' = requested w) /\
     (forall pid img, last (photo msg) = Some pid -> download E pid = Ok img ->
        requested w' =
          (requested w ++ [description_request img (get (caption msg) "")])%list)) /\
  (forall e, fst (handle_photo E msg w) = Raise e ->
     telegram_api E (describing_call msg) = Raise e \/
     exists tid, telegram_api E (describing_call msg) = Ok tid /\
                 telegram_api E (description_error_edit msg tid) = Raise e).
Proof.
  intros Hp w'. subst w'. split.
  { apply (photo_description_keeps same_store msg); try exact Hp;
      try (intros; split; reflexivity).
    intros w1 w2 w3 [H1 H2] [H3 H4]. split; congruence. }
  rewrite (description_branch E msg w Hp).
  set (w0 := add_delivered (describing_call msg) w).
  split; [intros e ->; reflexivity|]. split.
  - intros tid ->. split.
    + intros Hno. unfold try_except, bind at 1.
      assert (Hfetch : exists e, fetch_photo E msg w0 = (Raise e, w0)).
      { unfold fetch_photo, lift, raise.
        destruct Hno as [->|(pid & e & -> & ->)]; eauto. }
      destruct Hfetch as [e ->]. run_m. unfold bot_call.
      destruct (telegram_api E (description_error_edit msg tid)); reflexivity.
    + intros pid img Hlast Hdl. unfold try_except, bind at 1.
      unfold fetch_photo. rewrite Hlast. unfold lift at 1. rewrite Hdl.
      unfold bind at 1.
      pose proof (image_description_spec E img (get (caption msg) "") w0)
        as ([s Hs] & _ & _ & Hr).
      destruct (call_gemini_for_image_description E img _ w0) as [r w1].
      simpl in Hs, Hr. subst r.
      unfold bind, bot_call, log_event, modify.
      destruct (telegram_api E (EditMessageText s _ _ _)); [exact Hr|].
      simpl. destruct (telegram_api E (description_error_edit msg tid)); exact Hr.
  - intros e. destruct (telegram_api E (describing_call msg)) as [tid|e0].
    + intros H. right. exists tid. split; [reflexivity|]. revert H.
      unfold try_except.
      match goal with |- context [match ?m w0 with _ => _ end] =>
        destruct (m w0) as [[[]|e1] w1] end.
      * discriminate.
      * run_m. unfold bot_call.
        destruct (telegram_api E (description_error_edit msg tid));
          simpl; intros H; congruence.
    + simpl. intros H. left. congruence.
Qed.

Lemma photo_description_outcomes_witness :
  no_image offline (photo_of_42 "look") /\
  requested (snd (handle_photo offline (photo_of_42 "look") fresh_world)) = [] /\
  requested (snd (handle_photo (online (JDict scam)) (photo_of_42 "look") fresh_world)) =
    [description_request (Image "large") "look"].
Proof.
  assert (Hno : no_image offline (photo_of_42 "look")).
  { right. exists "large", (Exn RequestException "connection refused").
    split; reflexivity. }
  split; [exact Hno|]. split.
  - destruct (photo_description_outcomes offline (photo_of_42 "look") fresh_world eq_refl)
      as (_ & _ & H & _).
    destruct (H 1%Z eq_refl) as [H1 _]. apply H1, Hno.
  - destruct (photo_description_outcomes (online (JDict scam)) (photo_of_42 "look")
                fresh_world eq_refl) as (_ & _ & H & _).
    destruct (H 1%Z eq_refl) as [_ H2]. apply (H2 "large" (Image "large")); reflexivity.
Defined.

(* ================================================================== *)
(** * The description call and the log *)
(* ================================================================== *)

(** X22.  [call_gemini_for_image_description] never raises, leaves the store
    and Telegram alone and sends exactly one request.  It returns the text
    of the model when the answer has parts and logs nothing; when the call
    raises or the answer has no parts it returns the fixed warning text and
    logs one ERROR line of SYSTEM. *)
Theorem image_description_fallback E img capt w :
  let r := call_gemini_for_image_description E img capt w in
  (exists s, fst r = Ok s) /\
  same_store w (snd r) /\
  delivered (snd r) = delivered w /\
  requested (snd r) = (requested w ++ [description_request img capt])%list /\
  (forall resp, gemini E (description_request img capt) = Ok resp ->
                resp_parts resp <> [] ->
                fst r = Ok (resp_text resp) /\ bot_logs (snd r) = bot_logs w) /\
  ((exists e, gemini E (description_request img capt) = Raise e) \/
   (exists resp, gemini E (description_request img capt) = Ok resp /\ resp_parts resp = []) ->
   fst r = Ok DESCRIPTION_FAILED /\
   exists line, bot_logs (snd r) = (bot_logs w ++ [line])%list /\
                who line = SYSTEM /\ action line = "ERROR").
Proof.
  intros r. subst r.
  pose proof (image_description_spec E img capt w) as (Hok & Hs & Hd & Hr).
  simpl in Hok, Hs, Hd, Hr.
  split; [exact Hok|]. split; [exact Hs|]. split; [exact Hd|]. split; [exact Hr|].
  unfold call_gemini_for_image_description. fold (description_request img capt).
  fold DESCRIPTION_FAILED. run_m. split.
  - intros resp Hg Hp. rewrite Hg. destruct (resp_parts resp); [congruence|].
    simpl. split; reflexivity.
  - intros [[e Hg]|(resp & Hg & Hp)]; rewrite Hg; [|rewrite Hp]; simpl;
      (split; [reflexivity|]); eexists; repeat split.
Qed.

Lemma image_description_fallback_witness :
  gemini offline (description_request (Image "large") "look") =
    Raise (Exn GoogleAPIError "503 Service Unavailable") /\
  fst (call_gemini_for_image_description offline (Image "large") "look" fresh_world) =
    Ok DESCRIPTION_FAILED.
Proof.
  split; [reflexivity|].
  destruct (image_description_fallback offline (Image "large") "look" fresh_world)
    as (_ & _ & _ & _ & _ & H).
  destruct H as [H _]; [|exact H]. left. eexists. reflexivity.
Defined.

Lemma handle_chat_logs E msg w :
  last (bot_logs (snd (handle_chat E msg w))) =
  Some (LogLine (LogUser (from_user msg)) "CHAT_MESSAGE" "").
Proof.
  unfold handle_chat. unfold bind at 1 2. unfold modify at 1, gets at 1.
  set (w0 := set_bot_user_data _ w). set (hist := stored_history _ _).
  unfold bind at 1.
  pose proof (chat_spec E (text msg) hist w0) as (Hv & _).
  destruct (call_gemini_for_chat E (text msg) hist w0) as [r w1].
  simpl in Hv. subst r. unfold bind at 1. rewrite send_safe_reply_cases.
  set (w2 := match telegram_api E _ with Ok _ => _ | Raise _ => _ end).
  destruct (negb (contains Glyph.WARNING_SIGN _)); run_m; apply last_snoc.
Qed.

(** X23.  Every [/start], [/complaint] and chat message ends with its log
    line (COMMAND_START, COMMAND_COMPLAINT, CHAT_MESSAGE) of the sender,
    whatever the model and Telegram do; an analysis that returns ends with
    a log line of the sender, ANALYSIS_SUCCESS or ERROR. *)
Theorem handled_updates_are_logged E msg w :
  last (bot_logs (snd (send_welcome E msg w))) =
    Some (LogLine (LogUser (from_user msg)) "COMMAND_START" "") /\
  last (bot_logs (snd (complaint_cmd E msg w))) =
    Some (LogLine (LogUser (from_user msg)) "COMMAND_COMPLAINT" "") /\
  last (bot_logs (snd (handle_chat E msg w))) =
    Some (LogLine (LogUser (from_user msg)) "CHAT_MESSAGE" "") /\
  (forall content img,
     fst (run_analysis E msg content img w) = Ok tt ->
     exists line, last (bot_logs (snd (run_analysis E msg content img w))) = Some line /\
                  who line = LogUser (from_user msg) /\
                  (action line = "ANALYSIS_SUCCESS" \/ action line = "ERROR")).
Proof.
  split; [rewrite send_welcome_cases; apply last_snoc|].
  split; [rewrite complaint_cmd_cases; apply last_snoc|].
  split; [apply handle_chat_logs|].
  intros content img.
  unfold run_analysis; fold (thinking_call msg).
  unfold bot_call, bind, try_except, lift.
  destruct (telegram_api E (thinking_call msg)) as [tid|e]; [|discriminate].
  pose proof (structured_analysis_spec E content img
                (add_delivered (thinking_call msg) w)) as (Hv & _).
  destruct (call_gemini_for_structured_analysis E content img _) as [r w1].
  simpl in Hv. subst r.
  destruct (analysis_result E content img) as [d|].
  - destruct (format_analysis_reply_ok d) as [s Hfmt]. rewrite Hfmt.
    rewrite get_result_color_dict.
    set (col := if _ : bool then "RED" else _).
    destruct (String.eqb col "RED"); run_m; split_telegram E; simpl;
      intros H; try discriminate H;
      (eexists; split; [apply last_snoc|]; split; [reflexivity|]; auto).
  - run_m. split_telegram E; simpl; intros H; try discriminate H;
      (eexists; split; [apply last_snoc|]; split; [reflexivity|]; auto).
Qed.

Lemma handled_updates_are_logged_witness :
  fst (run_analysis (answering (JDict scam)) (message_of_42 "/search x") "x" None
                    fresh_world) = Ok tt /\
  exists line,
    last (bot_logs (snd (run_analysis (answering (JDict scam)) (message_of_42 "/search x")
                                      "x" None fresh_world))) = Some line /\
    who line = LogUser (from_user (message_of_42 "/search x")).
Proof.
  assert (H0 : fst (run_analysis (answering (JDict scam)) (message_of_42 "/search x") "x"
                                 None fresh_world) = Ok tt) by reflexivity.
  split; [exact H0|].
  destruct (handled_updates_are_logged (answering (JDict scam)) (message_of_42 "/search x")
              fresh_world) as (_ & _ & _ & H).
  destruct (H "x" None H0) as (line & Hl & Hw & _). eauto.
Defined.
